(** * kedro-azureml: configuration schema and dataset constructors

    A shallow embedding of [kedro_azureml/config.py] (the pydantic models, the
    [resources] validator and [DefaultConfigDict]) and of the constructors of
    [datasets/models.py] and [datasets/folder_dataset.py], with the
    properties of the layered resource lookup and of the constructors'
    guards. *)

From stdpp Require Import gmap strings list fin_maps pretty.

Set Warnings "-register-all".

Open Scope string_scope.
Open Scope list_scope.

(** ** Python values

    A parsed configuration document is a [dict] with string keys whose values
    are the scalars and mappings a YAML loader produces.  A float is carried
    by its [str()] text, which is all that validation looks at.  Sequences
    are left out: no field of the schema takes one. *)

Inductive pyval : Type :=
| PNone
| PBool (b : bool)
| PInt (z : Z)
| PFloat (text : string)
| PStr (s : string)
| PDict (d : gmap string pyval).

(** ** Exceptions *)

(** The error types that pydantic attaches to a location. *)
Inductive error_kind : Type :=
| MissingError            (* field required *)
| NoneIsNotAllowedError   (* none is not an allowed value *)
| StrError                (* str type expected *)
| DictError.              (* value is not a valid dict *)

Definition Loc : Type := list string.
Definition ErrorList : Type := list (Loc * error_kind).

Inductive exn : Type :=
| ValidationError (errors : ErrorList)
| KeyError (key : string)
| DataSetError (msg : string)
| ImportError (msg : string)
| ValueError (msg : string)
| OtherError (msg : string).

Inductive result (A : Type) : Type :=
| Ok (a : A)
| Raise (e : exn).
Arguments Ok {A} a.
Arguments Raise {A} e.

#[global] Instance result_ret : MRet result := @Ok.
#[global] Instance result_bind : MBind result := λ A B k r,
  match r with
  | Ok a => k a
  | Raise e => Raise e
  end.

(** [x or {}]: an empty dictionary counts as false. *)
Definition or_dict {A : Type} (x : option (gmap string A)) : gmap string A :=
  match x with
  | Some d => if decide (size d = 0) then ∅ else d
  | None => ∅
  end.

(** ** The part of pydantic (1.x) that [config.py] relies on *)

Module pydantic.

(** [str_validator]: a [str] is kept, numbers and booleans are turned into
    their [str()] text, anything else is refused. *)
Definition str_validator (v : pyval) : option string :=
  match v with
  | PStr s => Some s
  | PInt z => Some (pretty z)
  | PBool b => Some (if b then "True" else "False")
  | PFloat text => Some text
  | PNone | PDict _ => None
  end.

(** A field annotated [str]. *)
Definition validate_str (loc : Loc) (v : pyval) : ErrorList + string :=
  match v with
  | PNone => inl [(loc, NoneIsNotAllowedError)]
  | _ =>
      match str_validator v with
      | Some s => inr s
      | None => inl [(loc, StrError)]
      end
  end.

(** [dict(value)] for a value that is not a [dict]: only the empty string is
    an iterable of pairs among the scalars. *)
Definition dict_validator (v : pyval) : option (gmap string pyval) :=
  match v with
  | PDict d => Some d
  | PStr "" => Some ∅
  | _ => None
  end.

(** A field annotated with a model class: [Model.validate(value)] builds the
    model from the mapping, the errors of its fields keep their location
    below [loc]. *)
Definition validate_model {A : Type}
    (fields : Loc → gmap string pyval → ErrorList + A)
    (loc : Loc) (v : pyval) : ErrorList + A :=
  match v with
  | PNone => inl [(loc, NoneIsNotAllowedError)]
  | _ =>
      match dict_validator v with
      | Some d => fields loc d
      | None => inl [(loc, DictError)]
      end
  end.

(** A required field of a model: looked up in the input by its name. *)
Definition required {A : Type} (validate : Loc → pyval → ErrorList + A)
    (loc : Loc) (d : gmap string pyval) (name : string) : ErrorList + A :=
  match d !! name with
  | None => inl [(loc ++ [name], MissingError)]
  | Some v => validate (loc ++ [name]) v
  end.

Definition errors_of {A : Type} (r : ErrorList + A) : ErrorList :=
  match r with
  | inl e => e
  | inr _ => []
  end.

(** [validate_model] goes through all the fields and gathers their errors;
    the model is built when no field failed. *)
Definition ap {A B : Type} (f : ErrorList + (A → B)) (x : ErrorList + A)
    : ErrorList + B :=
  match f, x with
  | inr g, inr a => inr (g a)
  | _, _ => inl (errors_of f ++ errors_of x)
  end.

Definition to_ok {A : Type} (r : ErrorList + A) : option A :=
  match r with
  | inr a => Some a
  | inl _ => None
  end.

(** A field annotated [Dict[str, Model]]: every item is validated at
    [loc ++ [key]]; the errors of all items are gathered (here in the order
    of the map, which no statement below depends on). *)
Definition validate_mapping {A : Type}
    (validate : Loc → pyval → ErrorList + A)
    (loc : Loc) (v : pyval) : ErrorList + gmap string A :=
  match dict_validator v with
  | None => inl [(loc, DictError)]
  | Some d =>
      let rs := map_imap (λ k v_, Some (validate (loc ++ [k]) v_)) d in
      if decide (map_Forall (λ _ r, is_Some (to_ok r)) rs)
      then inr (omap to_ok rs)
      else inl (map_to_list rs ≫= λ kr, errors_of kr.2)
  end.

End pydantic.

Infix "<*>" := pydantic.ap (at level 61, left associativity).

(** ** [config.py] *)

(** [class ResourceConfig(BaseModel)].  An instance holds whatever its
    [__dict__] was given: validation puts a [str] there, [copy(update=...)]
    puts the updating value there unchecked.  No code assigns to a field of
    an instance, so records are values: that the factory's record is shared
    by the keys it was stored under cannot be observed. *)
Module ResourceConfig.

Record t : Type := Build { cluster_name : pyval }.

Definition fields (loc : Loc) (d : gmap string pyval) : ErrorList + t :=
  inr (λ s, Build (PStr s))
    <*> pydantic.required pydantic.validate_str loc d "cluster_name".

Definition validate := pydantic.validate_model fields.

(** [self.dict()] *)
Definition dict (self : t) : gmap string pyval :=
  {[ "cluster_name" := cluster_name self ]}.

(** [self.dict(exclude_none=True)] *)
Definition dict_exclude_none (self : t) : gmap string pyval :=
  match cluster_name self with
  | PNone => ∅
  | v => {[ "cluster_name" := v ]}
  end.

(** [self.copy(update=update)]: the fields of [self], overwritten by the
    entries of [update]. *)
Definition copy (self : t) (update : gmap string pyval) : t :=
  Build (default (cluster_name self) (update !! "cluster_name")).

(** An instance of a [BaseModel] has no [__bool__] and no [__len__]: it is
    true in a condition. *)
Definition truthy (self : t) : bool := true.

(** Every field holds a value of its declared type. *)
Definition populated (self : t) : Prop := ∃ s, cluster_name self = PStr s.

End ResourceConfig.

(** [class DefaultConfigDict(defaultdict)] *)
Module DefaultConfigDict.

(** [default_factory] is given by the value the factory returns ([None] when
    the dictionary has no factory); [data] are the stored items. *)
Record t : Type := Build {
  default_factory : option ResourceConfig.t;
  data : gmap string ResourceConfig.t
}.

(** [defaultdict.__getitem__]: a missing key is bound to the value of the
    factory, which is returned; [KeyError] without a factory. *)
Definition super_getitem (self : t) (key : string)
    : result (ResourceConfig.t * t) :=
  match data self !! key with
  | Some v => Ok (v, self)
  | None =>
      match default_factory self with
      | Some v => Ok (v, Build (default_factory self) (<[key := v]> (data self)))
      | None => Raise (KeyError key)
      end
  end.

Definition __getitem__ (self : t) (key : string)
    : result (ResourceConfig.t * t) :=
  '(defaults, self) ← super_getitem self "__default__";
  '(this, self) ← super_getitem self key;
  Ok (if ResourceConfig.truthy defaults
      then ResourceConfig.copy defaults (ResourceConfig.dict_exclude_none this)
      else this,
      self).

End DefaultConfigDict.

(** [class DockerConfig(BaseModel)] *)
Module DockerConfig.

Record t : Type := Build { image : string }.

Definition fields (loc : Loc) (d : gmap string pyval) : ErrorList + t :=
  inr Build <*> pydantic.required pydantic.validate_str loc d "image".

Definition validate := pydantic.validate_model fields.

End DockerConfig.

(** [class AzureTempStorageConfig(BaseModel)] *)
Module AzureTempStorageConfig.

Record t : Type := Build { account_name : string; container : string }.

Definition fields (loc : Loc) (d : gmap string pyval) : ErrorList + t :=
  inr Build
    <*> pydantic.required pydantic.validate_str loc d "account_name"
    <*> pydantic.required pydantic.validate_str loc d "container".

Definition validate := pydantic.validate_model fields.

End AzureTempStorageConfig.

(** [class AzureMLConfig(BaseModel)] *)
Module AzureMLConfig.

Record t : Type := Build {
  experiment_name : string;
  workspace_name : string;
  resource_group : string;
  cluster_name : string;
  temporary_storage : AzureTempStorageConfig.t;
  resources : DefaultConfigDict.t
}.

Definition _create_default_dict_with
    (value : option (gmap string ResourceConfig.t))
    (default_ : ResourceConfig.t) : DefaultConfigDict.t :=
  let value := or_dict value in
  let default_value := default default_ (value !! "__default__") in
  DefaultConfigDict.Build (Some default_value) value.

(** [@validator("resources", always=True)] *)
Definition _validate_resources (value : option (gmap string ResourceConfig.t))
    : DefaultConfigDict.t :=
  _create_default_dict_with value (ResourceConfig.Build (PStr "{cluster_name}")).

(** [resources: Optional[Dict[str, ResourceConfig]]]: an absent key stands
    for [None]; [None] skips the type validation; the validator above runs in
    both cases and on the validated dictionary. *)
Definition validate_resources (loc : Loc) (d : gmap string pyval)
    : ErrorList + DefaultConfigDict.t :=
  match d !! "resources" with
  | None | Some PNone => inr (_validate_resources None)
  | Some v =>
      match pydantic.validate_mapping ResourceConfig.validate
              (loc ++ ["resources"]) v with
      | inr value => inr (_validate_resources (Some value))
      | inl e => inl e
      end
  end.

Definition fields (loc : Loc) (d : gmap string pyval) : ErrorList + t :=
  inr Build
    <*> pydantic.required pydantic.validate_str loc d "experiment_name"
    <*> pydantic.required pydantic.validate_str loc d "workspace_name"
    <*> pydantic.required pydantic.validate_str loc d "resource_group"
    <*> pydantic.required pydantic.validate_str loc d "cluster_name"
    <*> pydantic.required AzureTempStorageConfig.validate loc d "temporary_storage"
    <*> validate_resources loc d.

Definition validate := pydantic.validate_model fields.

(** [AzureMLConfig.parse_obj(obj)] for a document [obj] that is a [dict]. *)
Definition parse_obj (obj : gmap string pyval) : result t :=
  match fields [] obj with
  | inr config => Ok config
  | inl errors => Raise (ValidationError errors)
  end.

End AzureMLConfig.

(** [class KedroAzureMLConfig(BaseModel)] *)
Module KedroAzureMLConfig.

Record t : Type := Build {
  azure : AzureMLConfig.t;
  docker : DockerConfig.t
}.

Definition fields (loc : Loc) (d : gmap string pyval) : ErrorList + t :=
  inr Build
    <*> pydantic.required AzureMLConfig.validate loc d "azure"
    <*> pydantic.required DockerConfig.validate loc d "docker".

(** [KedroAzureMLConfig.parse_obj(obj)] for a document [obj] that is a
    [dict]. *)
Definition parse_obj (obj : gmap string pyval) : result t :=
  match fields [] obj with
  | inr config => Ok config
  | inl errors => Raise (ValidationError errors)
  end.

End KedroAzureMLConfig.

(** [class KedroAzureRunnerConfig(BaseModel)] *)
Module KedroAzureRunnerConfig.

Record t : Type := Build {
  temporary_storage : AzureTempStorageConfig.t;
  run_id : string;
  storage_account_key : string
}.

Definition fields (loc : Loc) (d : gmap string pyval) : ErrorList + t :=
  inr Build
    <*> pydantic.required AzureTempStorageConfig.validate loc d "temporary_storage"
    <*> pydantic.required pydantic.validate_str loc d "run_id"
    <*> pydantic.required pydantic.validate_str loc d "storage_account_key".

(** [KedroAzureRunnerConfig.parse_obj(obj)] for a document [obj] that is a
    [dict]. *)
Definition parse_obj (obj : gmap string pyval) : result t :=
  match fields [] obj with
  | inr config => Ok config
  | inl errors => Raise (ValidationError errors)
  end.

End KedroAzureRunnerConfig.

(** The template of [CONFIG_TEMPLATE_YAML], as [yaml.safe_load] returns it. *)
Definition CONFIG_TEMPLATE : gmap string pyval :=
  {[ "azure" := PDict
       {[ "cluster_name" := PStr "{cluster_name}";
          "experiment_name" := PStr "{experiment_name}";
          "resource_group" := PStr "{resource_group}";
          "workspace_name" := PStr "{workspace_name}";
          "temporary_storage" := PDict
            {[ "account_name" := PStr "{storage_account_name}";
               "container" := PStr "{storage_container}" ]};
          "resources" := PDict
            {[ "__default__" := PDict {[ "cluster_name" := PStr "{cluster_name}" ]};
               "chunky" := PDict {[ "cluster_name" := PStr "chunky-cpu-cluster" ]} ]} ]};
     "docker" := PDict {[ "image" := PStr "{docker_image}" ]} ]}.


(** ** [datasets/models.py] and [datasets/folder_dataset.py] *)

(** What the constructors use from kedro and from importlib: the
    constructors of the base classes, [find_spec] (whether a module was
    found) and [import_module], each of which may raise, and the two keys of
    [kedro.io.core]. *)
Class Environment : Type := {
  Any : Type;
  Version : Type;
  Dataset : Type;
  AbstractVersionedDataSet : Type;
  AbstractVersionedDataSet_init :
    string → option Version → result AbstractVersionedDataSet;
  AzureMLPipelineDataSet : Type;
  AzureMLPipelineDataSet_init : Dataset → string → result AzureMLPipelineDataSet;
  _dataset_config : AzureMLPipelineDataSet → gmap string Any;
  VERSION_KEY : string;
  VERSIONED_FLAG_KEY : string;
  find_spec : string → result bool;
  import_module : string → result unit
}.

(** [try: body except ImportError as err: raise DataSetError(err)] *)
Definition except_ImportError {A : Type} (body : result A) : result A :=
  match body with
  | Raise (ImportError msg) => Raise (DataSetError msg)
  | r => r
  end.

(** [type(flag)], as an f-string shows it. *)
Definition type_text (v : pyval) : string :=
  match v with
  | PNone => "<class 'NoneType'>"
  | PBool _ => "<class 'bool'>"
  | PInt _ => "<class 'int'>"
  | PFloat _ => "<class 'float'>"
  | PStr _ => "<class 'str'>"
  | PDict _ => "<class 'dict'>"
  end.

(** [class MlflowAbstractModelDataSet(AbstractVersionedDataSet)] *)
Module MlflowAbstractModelDataSet.

Section env.

Context `{Environment}.

Record t : Type := Build {
  base : AbstractVersionedDataSet;
  _flavor : string;
  _pyfunc_workflow : option string;
  __logging_activated : bool;
  _load_args : gmap string Any;
  _save_args : gmap string Any
}.

(** [@_logging_activated.setter] *)
Definition _logging_activated_setter (flag : pyval) : result bool :=
  match flag with
  | PBool b => Ok b
  | _ => Raise (ValueError
           ("_logging_activated must be a boolean, got " +:+ type_text flag))
  end.

(** [@staticmethod _import_module] *)
Definition _import_module (import_path : string) : result unit :=
  exists_ ← find_spec import_path;
  if negb exists_
  then Raise (ImportError
         ("'" +:+ import_path +:+
          "' module not found. Check valid flavor in mlflow documentation: https://www.mlflow.org/docs/latest/python_api/index.html"))
  else import_module import_path.

(** [@_mlflow_model_module.getter] *)
Definition _mlflow_model_module (flavor : string) : result unit :=
  _import_module flavor.

Definition pyfunc_workflows : list (option string) :=
  [Some "python_model"; Some "loader_module"].

Definition __init__ (filepath flavor : string) (pyfunc_workflow : option string)
    (load_args save_args : option (gmap string Any)) (version : option Version)
    : result t :=
  base ← AbstractVersionedDataSet_init filepath version;
  logging ← _logging_activated_setter (PBool true);
  if bool_decide (flavor = "mlflow.pyfunc")
     && negb (bool_decide (pyfunc_workflow ∈ pyfunc_workflows))
  then Raise (DataSetError
         "PyFunc models require specifying `pyfunc_workflow` (set to either `python_model` or `loader_module`)")
  else
    _ ← except_ImportError (_mlflow_model_module flavor);
    Ok (Build base flavor pyfunc_workflow logging
          (or_dict load_args) (or_dict save_args)).

End env.

End MlflowAbstractModelDataSet.

(** [class MlflowModelLoggerDataSet(MlflowAbstractModelDataSet)] *)
Module MlflowModelLoggerDataSet.

Section env.

Context `{Environment}.

Record t : Type := Build {
  super : MlflowAbstractModelDataSet.t;
  _run_id : option string;
  _artifact_path : option string
}.

(** [self._save_args.pop("artifact_path", None)] *)
Definition pop_artifact_path (self : MlflowAbstractModelDataSet.t)
    : MlflowAbstractModelDataSet.t :=
  MlflowAbstractModelDataSet.Build
    (MlflowAbstractModelDataSet.base self)
    (MlflowAbstractModelDataSet._flavor self)
    (MlflowAbstractModelDataSet._pyfunc_workflow self)
    (MlflowAbstractModelDataSet.__logging_activated self)
    (MlflowAbstractModelDataSet._load_args self)
    (delete "artifact_path" (MlflowAbstractModelDataSet._save_args self)).

Definition __init__ (flavor : string) (run_id artifact_path : option string)
    (pyfunc_workflow : option string)
    (load_args save_args : option (gmap string Any)) : result t :=
  self ← MlflowAbstractModelDataSet.__init__
            "" flavor pyfunc_workflow load_args save_args None;
  Ok (Build (pop_artifact_path self) run_id artifact_path).

End env.

End MlflowModelLoggerDataSet.

(** [class AzureMLFolderDataSet(AzureMLPipelineDataSet)] *)
Module AzureMLFolderDataSet.

Section env.

Context `{Environment}.

Record t : Type := Build {
  super : AzureMLPipelineDataSet;
  _azureml_dataset : string
}.

(** The message of the error, for an object of the class [class_name]. *)
Definition versioning_message (class_name : string) : string :=
  "'" +:+ class_name +:+
  "' does not support versioning of the underlying dataset. Please remove '"
  +:+ VERSIONED_FLAG_KEY +:+ "' flag from the dataset definition.".

(** [class_name] is [self.__class__.__name__]. *)
Definition __init__ (class_name : string) (azureml_dataset : string)
    (dataset : Dataset) (filepath_arg : string) : result t :=
  super ← AzureMLPipelineDataSet_init dataset filepath_arg;
  if bool_decide (VERSION_KEY ∈ dom (_dataset_config super))
  then Raise (DataSetError (versioning_message class_name))
  else Ok (Build super azureml_dataset).

End env.

End AzureMLFolderDataSet.

(** An environment for the examples: the constructors of kedro store their
    arguments, a dataset definition is its configuration, the modules in
    [modules] are installed. *)
Definition example_environment (modules : list string) : Environment := {|
  Any := pyval;
  Version := string;
  Dataset := gmap string pyval;
  AbstractVersionedDataSet := string * option string;
  AbstractVersionedDataSet_init filepath version := Ok (filepath, version);
  AzureMLPipelineDataSet := gmap string pyval * string;
  AzureMLPipelineDataSet_init dataset filepath_arg := Ok (dataset, filepath_arg);
  _dataset_config := fst;
  VERSION_KEY := "version";
  VERSIONED_FLAG_KEY := "versioned";
  find_spec import_path := Ok (bool_decide (import_path ∈ modules));
  import_module _ := Ok ()
|}.

(** ** The methods of [MlflowModelLoggerDataSet] *)

(** What the methods use from mlflow, over a state [World] of the tracking
    service that each call may change: the id of the run that is active,
    entering and leaving [with mlflow.start_run(run_id=...)] (leaving is
    told whether the block finished), the lookup of a function in the module
    of a flavor, and the functions [log_model] and [load_model] of that
    module.  [log_model] gets its positional arguments, a model or the
    artifact path, and its keyword arguments. *)
Class Mlflow `{Environment} : Type := {
  World : Type;
  active_run : World → option string;
  start_run : string → World → result unit * World;
  end_run : bool → World → result unit * World;
  module_attr : string → string → result unit;
  log_model :
    string → list (Any + option string) → gmap string Any → World →
    result unit * World;
  load_model : string → string → gmap string Any → World → result Any * World
}.

(** A string in a condition: [None] and the empty string are false. *)
Definition truthy_str (s : option string) : bool :=
  match s with
  | Some (String _ _) => true
  | Some EmptyString | None => false
  end.

(** An [Optional[str]] inside an f-string. *)
Definition format_opt (s : option string) : string := default "None" s.

Definition newline : string := String (Ascii.ascii_of_nat 10) "".

Definition is_ok {A : Type} (r : result A) : bool :=
  match r with
  | Ok _ => true
  | Raise _ => false
  end.

Module ModelLogger.

Section env.

Context `{Mlflow}.

Abbreviation t := MlflowModelLoggerDataSet.t.

Definition _flavor (self : t) : string :=
  MlflowAbstractModelDataSet._flavor (MlflowModelLoggerDataSet.super self).

Definition _pyfunc_workflow (self : t) : option string :=
  MlflowAbstractModelDataSet._pyfunc_workflow (MlflowModelLoggerDataSet.super self).

Definition _logging_activated (self : t) : bool :=
  MlflowAbstractModelDataSet.__logging_activated (MlflowModelLoggerDataSet.super self).

Definition _load_args (self : t) : gmap string Any :=
  MlflowAbstractModelDataSet._load_args (MlflowModelLoggerDataSet.super self).

Definition _save_args (self : t) : gmap string Any :=
  MlflowAbstractModelDataSet._save_args (MlflowModelLoggerDataSet.super self).

(** [self._save_args[key] = value] *)
Definition set_save_arg (self : t) (key : string) (value : Any) : t :=
  MlflowModelLoggerDataSet.Build
    (MlflowAbstractModelDataSet.Build
       (MlflowAbstractModelDataSet.base (MlflowModelLoggerDataSet.super self))
       (_flavor self) (_pyfunc_workflow self) (_logging_activated self)
       (_load_args self) (<[key := value]> (_save_args self)))
    (MlflowModelLoggerDataSet._run_id self)
    (MlflowModelLoggerDataSet._artifact_path self).

(** [self._logging_activated = flag] *)
Definition set_logging_activated (self : t) (flag : pyval) : result t :=
  b ← MlflowAbstractModelDataSet._logging_activated_setter flag;
  Ok (MlflowModelLoggerDataSet.Build
        (MlflowAbstractModelDataSet.Build
           (MlflowAbstractModelDataSet.base (MlflowModelLoggerDataSet.super self))
           (_flavor self) (_pyfunc_workflow self) b
           (_load_args self) (_save_args self))
        (MlflowModelLoggerDataSet._run_id self)
        (MlflowModelLoggerDataSet._artifact_path self)).

Definition model_uri_message : string :=
  "To access the model_uri, you must either: " +:+ newline +:+
  " -  specifiy 'run_id' " +:+ newline +:+
  " - have an active run to retrieve data from".

(** [@property model_uri] *)
Definition model_uri (self : t) (w : World) : result string :=
  let run_id :=
    if truthy_str (MlflowModelLoggerDataSet._run_id self)
    then MlflowModelLoggerDataSet._run_id self
    else active_run w in
  match run_id with
  | None => Raise (DataSetError model_uri_message)
  | Some run_id =>
      Ok ("runs:/" +:+ run_id +:+ "/" +:+
          format_opt (MlflowModelLoggerDataSet._artifact_path self))
  end.

(** [self._mlflow_model_module.name]: the module is imported, then the
    function is looked up in it. *)
Definition module_function (self : t) (name : string) : result unit :=
  MlflowAbstractModelDataSet._mlflow_model_module (_flavor self);;
  module_attr (_flavor self) name.

(** [_load]: the function is found first, the URI is worked out next; a
    [model_uri] among the [load_args] clashes with the keyword of the call,
    a [TypeError]. *)
Definition _load (self : t) (w : World) : result Any * World :=
  match module_function self "load_model" with
  | Raise e => (Raise e, w)
  | Ok _ =>
      match model_uri self w with
      | Raise e => (Raise e, w)
      | Ok uri =>
          if bool_decide ("model_uri" ∈ dom (_load_args self))
          then (Raise (OtherError "TypeError"), w)
          else load_model (_flavor self) uri (_load_args self) w
      end
  end.

(** The call of [log_model] of the flavor's module with the positional
    arguments [args] and the keyword arguments [self._save_args]. *)
Definition call_log_model (self : t) (args : list (Any + option string))
    (w : World) : result unit * World :=
  match module_function self "log_model" with
  | Raise e => (Raise e, w)
  | Ok _ => log_model (_flavor self) args (_save_args self) w
  end.

(** [_save_model_in_run]: the outcome, the object and the state of mlflow
    afterwards.  [None] stands for the one case left out: the flavor
    ["mlflow.pyfunc"] on an object without workflow, where the model would
    be stored under the key [None]; the constructor refuses such an
    object. *)
Definition _save_model_in_run (self : t) (model : Any) (w : World)
    : option (result unit * t * World) :=
  if bool_decide (_flavor self = "mlflow.pyfunc")
  then
    match _pyfunc_workflow self with
    | None => None
    | Some workflow =>
        let self := set_save_arg self workflow model in
        if _logging_activated self
        then
          let '(r, w) :=
            call_log_model self [inr (MlflowModelLoggerDataSet._artifact_path self)] w in
          Some (r, self, w)
        else Some (Ok (), self, w)
    end
  else
    if _logging_activated self
    then
      let '(r, w) :=
        call_log_model self
          [inl model; inr (MlflowModelLoggerDataSet._artifact_path self)] w in
      Some (r, self, w)
    else Some (Ok (), self, w).

Definition run_id_message (run_id active : string) : string :=
  "'run_id' cannot be specified if there is an mlflow active run.Run_id mismatch: "
  +:+ newline +:+ " - 'run_id'=" +:+ run_id
  +:+ newline +:+ " - active_run id=" +:+ active.

(** [_save] *)
Definition _save (self : t) (model : Any) (w : World)
    : option (result unit * t * World) :=
  if truthy_str (MlflowModelLoggerDataSet._run_id self)
  then
    let run_id := default "" (MlflowModelLoggerDataSet._run_id self) in
    match active_run w with
    | Some active => Some (Raise (DataSetError (run_id_message run_id active)), self, w)
    | None =>
        match start_run run_id w with
        | (Raise e, w) => Some (Raise e, self, w)
        | (Ok _, w) =>
            '(r, self, w) ← _save_model_in_run self model w;
            match end_run (is_ok r) w with
            | (Raise e, w) => Some (Raise e, self, w)
            | (Ok _, w) => Some (r, self, w)
            end
        end
    end
  else _save_model_in_run self model w.

(** An object as the constructor leaves it, as far as the methods care:
    with the flavor ["mlflow.pyfunc"] the workflow is one of the two. *)
Definition well_formed (self : t) : Prop :=
  _flavor self = "mlflow.pyfunc" →
  _pyfunc_workflow self ∈ MlflowAbstractModelDataSet.pyfunc_workflows.

End env.

End ModelLogger.

(** The calls that the example of mlflow records. *)
Inductive call : Type :=
| Started (run_id : string)
| Ended (finished : bool)
| Logged (flavor : string) (args : list (pyval + option string))
         (kwargs : gmap string pyval)
| Loaded (flavor uri : string) (kwargs : gmap string pyval).

(** An mlflow for the examples: the state is the active run and the calls
    made so far, no call fails, every module has every function. *)
Definition example_world : Type := option string * list call.

Definition example_log_model (flavor : string)
    (args : list (pyval + option string)) (kwargs : gmap string pyval)
    (w : example_world) : result unit * example_world :=
  (Ok (), (w.1, w.2 ++ [Logged flavor args kwargs])).

Definition example_load_model (flavor uri : string) (kwargs : gmap string pyval)
    (w : example_world) : result pyval * example_world :=
  (Ok PNone, (w.1, w.2 ++ [Loaded flavor uri kwargs])).

Definition example_mlflow (modules : list string)
    : @Mlflow (example_environment modules) :=
  @Build_Mlflow (example_environment modules) example_world
    (λ w, w.1)
    (λ run_id w, (Ok (), (Some run_id, w.2 ++ [Started run_id])))
    (λ finished w, (Ok (), (None, w.2 ++ [Ended finished])))
    (λ _ _, Ok ())
    example_log_model
    example_load_model.

(** Two loggers for the examples, as the constructor builds them in the
    example environment: one for a flavor whose [log_model] takes the model
    first, one for ["mlflow.pyfunc"]. *)
Definition example_modules : list string := ["mlflow.sklearn"; "mlflow.pyfunc"].

Definition sklearn_logger (run_id : option string) (logging : bool)
    : @MlflowModelLoggerDataSet.t (example_environment example_modules) :=
  @MlflowModelLoggerDataSet.Build (example_environment example_modules)
    (@MlflowAbstractModelDataSet.Build (example_environment example_modules)
       ("", None) "mlflow.sklearn" None logging ∅ ∅)
    run_id (Some "model").

Definition pyfunc_logger (run_id : option string) (logging : bool)
    : @MlflowModelLoggerDataSet.t (example_environment example_modules) :=
  @MlflowModelLoggerDataSet.Build (example_environment example_modules)
    (@MlflowAbstractModelDataSet.Build (example_environment example_modules)
       ("", None) "mlflow.pyfunc" (Some "python_model") logging ∅
       {[ "python_model" := PStr "given"; "conda_env" := PStr "env.yml" ]})
    run_id (Some "model").

(** ** Reading a raw document along the schema *)

Abbreviation resolve := DefaultConfigDict.__getitem__.

(** The mapping found in [d] under the section names of [path]. *)
Fixpoint section_at (d : gmap string pyval) (path : Loc)
    : option (gmap string pyval) :=
  match path with
  | [] => Some d
  | name :: rest =>
      v ← d !! name; d' ← pydantic.dict_validator v; section_at d' rest
  end.

(** The text that the field [name] of section [sec] validates to. *)
Definition raw_str (obj : gmap string pyval) (sec : Loc) (name : string)
    : option string :=
  d ← section_at obj sec; v ← d !! name; pydantic.str_validator v.

(** The items written under [resources] in the [azure] section [az]. *)
Definition raw_resources (az : gmap string pyval) : gmap string pyval :=
  default ∅ (az !! "resources" ≫= pydantic.dict_validator).

(** The fields annotated [str] and the fields annotated with a model, each
    with the section that declares it. *)
Definition str_fields : list (Loc * string) :=
  [ (["azure"], "experiment_name");
    (["azure"], "workspace_name");
    (["azure"], "resource_group");
    (["azure"], "cluster_name");
    (["azure"; "temporary_storage"], "account_name");
    (["azure"; "temporary_storage"], "container");
    (["docker"], "image") ].

Definition model_fields : list (Loc * string) :=
  [ ([], "azure"); (["azure"], "temporary_storage"); ([], "docker") ].

(** What validation objects to in the value given for a [str] field, and
    for a model field. *)
Definition str_fault (o : option pyval) : option error_kind :=
  match o with
  | None => Some MissingError
  | Some PNone => Some NoneIsNotAllowedError
  | Some v => if pydantic.str_validator v is Some _ then None else Some StrError
  end.

Definition model_fault (o : option pyval) : option error_kind :=
  match o with
  | None => Some MissingError
  | Some PNone => Some NoneIsNotAllowedError
  | Some v => if pydantic.dict_validator v is Some _ then None else Some DictError
  end.

(** The value that the section [d] gives for the field [name] declared in
    section [sec] is refused with [kind]. *)
Definition fault (d : gmap string pyval) (sec : Loc) (name : string)
    (kind : error_kind) : Prop :=
  ((sec, name) ∈ str_fields ∧ str_fault (d !! name) = Some kind) ∨
  ((sec, name) ∈ model_fields ∧ model_fault (d !! name) = Some kind).

(** A role of [resources] that validates: a mapping whose [cluster_name]
    validates as text. *)
Definition role_valid (item : pyval) : Prop :=
  ∃ d, pydantic.dict_validator item = Some d ∧
       is_Some (x ← d !! "cluster_name"; pydantic.str_validator x).

(** What stands under [resources] in the section [az] validates: nothing,
    null, or a mapping of valid roles. *)
Definition resources_valid (az : gmap string pyval) : Prop :=
  match az !! "resources" with
  | None | Some PNone => True
  | Some v =>
      ∃ d, pydantic.dict_validator v = Some d ∧ map_Forall (λ _ item, role_valid item) d
  end.

(** The names of the fields of [AzureMLConfig] and of [KedroAzureMLConfig]. *)
Definition AzureMLConfig_field_names : list string :=
  [ "experiment_name"; "workspace_name"; "resource_group"; "cluster_name";
    "temporary_storage"; "resources" ].

Definition KedroAzureMLConfig_field_names : list string := [ "azure"; "docker" ].

(** ** Tables and their lookups *)

(** One lookup takes the table from [t] to [t']. *)
Definition lookup_step (t t' : DefaultConfigDict.t) : Prop :=
  ∃ key r, resolve t key = Ok (r, t').

(** An [AzureMLConfig] that parsing returned: by its own [parse_obj], or
    as the [azure] of a [KedroAzureMLConfig]. *)
Definition parsed (a : AzureMLConfig.t) : Prop :=
  (∃ az, AzureMLConfig.parse_obj az = Ok a) ∨
  (∃ obj config,
     KedroAzureMLConfig.parse_obj obj = Ok config ∧
     KedroAzureMLConfig.azure config = a).

(** The tables a program can hold: the [resources] of a parsed document,
    after any number of lookups. *)
Definition built_by_parse (t : DefaultConfigDict.t) : Prop :=
  ∃ a, parsed a ∧ rtc lookup_step (AzureMLConfig.resources a) t.

(** The field-level merge of [__getitem__]. *)
Definition merge (D E : ResourceConfig.t) : ResourceConfig.t :=
  ResourceConfig.copy D (ResourceConfig.dict_exclude_none E).

(** The table has a factory returning [D], the entry stored under
    ["__default__"], if any, is [D], and every record is populated. *)
Definition table_inv (D : ResourceConfig.t) (t : DefaultConfigDict.t) : Prop :=
  DefaultConfigDict.default_factory t = Some D ∧
  ResourceConfig.populated D ∧
  (∀ r, DefaultConfigDict.data t !! "__default__" = Some r → r = D) ∧
  map_Forall (λ _ r, ResourceConfig.populated r) (DefaultConfigDict.data t).

(** Every record is [D] and the factory returns [D]. *)
Definition all_default (D : ResourceConfig.t) (t : DefaultConfigDict.t) : Prop :=
  DefaultConfigDict.default_factory t = Some D ∧
  map_Forall (λ _ r, r = D) (DefaultConfigDict.data t).

(** The record returned by a lookup, if it returns. *)
Definition returned {A B : Type} (r : result (A * B)) : option A :=
  match r with
  | Ok (a, _) => Some a
  | Raise _ => None
  end.

(** The table of a document, empty and without factory when the document
    is refused. *)
Definition table_of (obj : gmap string pyval) : DefaultConfigDict.t :=
  match KedroAzureMLConfig.parse_obj obj with
  | Ok config => AzureMLConfig.resources (KedroAzureMLConfig.azure config)
  | Raise _ => DefaultConfigDict.Build None ∅
  end.

(** ** Documents used as examples *)

Definition azure_section (cluster : pyval) (extra : gmap string pyval)
    : gmap string pyval :=
  {[ "experiment_name" := PStr "exp";
     "workspace_name" := PStr "ws";
     "resource_group" := PStr "rg";
     "cluster_name" := cluster;
     "temporary_storage" := PDict
       {[ "account_name" := PStr "acc"; "container" := PStr "cont" ]} ]} ∪ extra.

Definition document (az : gmap string pyval) : gmap string pyval :=
  {[ "azure" := PDict az; "docker" := PDict {[ "image" := PStr "img" ]} ]}.

(** No [resources] section at all. *)
Definition doc_plain : gmap string pyval :=
  document (azure_section (PStr "cpu-cluster") ∅).

(** The shape of the override example: a default and one role. *)
Definition resources_A_B : gmap string pyval :=
  {[ "__default__" := PDict {[ "cluster_name" := PStr "A" ]};
     "foo" := PDict {[ "cluster_name" := PStr "B" ]} ]}.

Definition doc_A_B : gmap string pyval :=
  document (azure_section (PStr "A") {[ "resources" := PDict resources_A_B ]}).

(** The storage account written as a number. *)
Definition doc_int_account : gmap string pyval :=
  document
    {[ "experiment_name" := PStr "exp";
       "workspace_name" := PStr "ws";
       "resource_group" := PStr "rg";
       "cluster_name" := PStr "cpu-cluster";
       "temporary_storage" := PDict
         {[ "account_name" := PInt 5; "container" := PStr "cont" ]} ]}.

(** The storage account left out. *)
Definition doc_no_account : gmap string pyval :=
  document
    {[ "experiment_name" := PStr "exp";
       "workspace_name" := PStr "ws";
       "resource_group" := PStr "rg";
       "cluster_name" := PStr "cpu-cluster";
       "temporary_storage" := PDict {[ "container" := PStr "cont" ]} ]}.

(** Every [str] field given as the empty string. *)
Definition doc_empty_strings : gmap string pyval :=
  {[ "azure" := PDict
       {[ "experiment_name" := PStr "";
          "workspace_name" := PStr "";
          "resource_group" := PStr "";
          "cluster_name" := PStr "";
          "temporary_storage" := PDict
            {[ "account_name" := PStr ""; "container" := PStr "" ]} ]};
     "docker" := PDict {[ "image" := PStr "" ]} ]}.

(** A role without a [__default__] entry beside it. *)
Definition doc_no_default : gmap string pyval :=
  document (azure_section (PStr "cpu-cluster")
    {[ "resources" := PDict {[ "gpu" := PDict {[ "cluster_name" := PStr "gpu-cluster" ]} ]} ]}).

(** Membership in a list written out. *)
Ltac in_list :=
  repeat first [apply list_elem_of_here | apply list_elem_of_further].

(** ** The lookup of [DefaultConfigDict] *)

Section table.

Import DefaultConfigDict.

Implicit Types (t : DefaultConfigDict.t) (D E r : ResourceConfig.t).
Implicit Types (key k : string).

Lemma merge_self D : merge D D = D.
Proof. destruct D as [[]]; reflexivity. Qed.

(** The merge, field by field: a field that [E] sets wins, a field that
    [E] leaves out keeps the value of [D]. *)
Lemma merge_set D E v :
  ResourceConfig.dict_exclude_none E !! "cluster_name" = Some v →
  ResourceConfig.cluster_name (merge D E) = v.
Proof. unfold merge, ResourceConfig.copy. by intros ->. Qed.

Lemma merge_unset D E :
  ResourceConfig.dict_exclude_none E !! "cluster_name" = None →
  ResourceConfig.cluster_name (merge D E) = ResourceConfig.cluster_name D.
Proof. unfold merge, ResourceConfig.copy. by intros ->. Qed.

Lemma merge_populated_r D E : ResourceConfig.populated E → merge D E = E.
Proof. destruct E as [v]. intros [s Hs]. simpl in Hs. by subst v. Qed.

(** The result and the next state of a lookup, for a table whose
    ["__default__"] entry agrees with its factory. *)
Lemma resolve_spec t D key :
  default_factory t = Some D →
  (∀ r, data t !! "__default__" = Some r → r = D) →
  resolve t key =
    Ok (merge D (default D (data t !! key)),
        Build (Some D)
          (<[key := default D (data t !! key)]> (<["__default__" := D]> (data t)))).
Proof.
  destruct t as [f m]; simpl. intros -> Hd.
  unfold __getitem__, super_getitem; simpl.
  destruct (m !! "__default__") as [d0|] eqn:H0; simpl.
  - rewrite (Hd d0 eq_refl) in *. rewrite (insert_id m "__default__" D H0).
    destruct (m !! key) as [E|] eqn:Hk; simpl.
    + by rewrite (insert_id m key E Hk).
    + done.
  - destruct (decide (key = "__default__")) as [->|Hne].
    + rewrite H0, lookup_insert_eq. simpl. by rewrite insert_insert_eq.
    + rewrite lookup_insert_ne by done.
      destruct (m !! key) as [E|] eqn:Hk; simpl; [|done].
      rewrite (insert_id (<["__default__" := D]> m) key E); [done|].
      by rewrite lookup_insert_ne.
Qed.

Lemma table_inv_step D t t' : table_inv D t → lookup_step t t' → table_inv D t'.
Proof.
  intros (Hf & HD & Hd & Hall) (key & r & Hr).
  rewrite (resolve_spec t D key Hf Hd) in Hr. injection Hr as _ <-.
  split_and!; simpl; [done|done| |].
  - intros r'. destruct (decide (key = "__default__")) as [->|Hne].
    + rewrite lookup_insert_eq. intros [= <-].
      destruct (data t !! "__default__") as [d0|] eqn:H0; simpl; [|done].
      by apply Hd.
    + rewrite lookup_insert_ne, lookup_insert_eq by done. congruence.
  - apply map_Forall_insert_2; [|by apply map_Forall_insert_2].
    destruct (data t !! key) as [E|] eqn:Hk; simpl; [|done].
    by apply (Hall key).
Qed.

Lemma table_inv_rtc D t t' : table_inv D t → rtc lookup_step t t' → table_inv D t'.
Proof. induction 2; eauto using table_inv_step. Qed.

End table.

(** ** Validation, field by field *)

Section validation.

Import pydantic.

Context {A B : Type}.
Implicit Types (loc : Loc) (d : gmap string pyval) (e : Loc * error_kind).

Lemma ap_inr (f : ErrorList + (A → B)) (x : ErrorList + A) y :
  f <*> x = inr y → ∃ g a, f = inr g ∧ x = inr a ∧ y = g a.
Proof. destruct f, x; simpl; intros [=]; eauto. Qed.

Lemma errors_of_ap (f : ErrorList + (A → B)) (x : ErrorList + A) :
  errors_of (f <*> x) = errors_of f ++ errors_of x.
Proof. by destruct f, x. Qed.

Lemma errors_of_elem (r : ErrorList + A) e :
  e ∈ errors_of r → ∃ errs, r = inl errs ∧ e ∈ errs.
Proof. destruct r; simpl; [eauto|]. by intros ?%elem_of_nil. Qed.

Lemma required_str_inr loc d name s :
  required validate_str loc d name = inr s →
  (v ← d !! name; str_validator v) = Some s.
Proof.
  unfold required. destruct (d !! name) as [v|]; [|done]. simpl.
  unfold validate_str. destruct v; simpl; by intros [= <-].
Qed.

Lemma required_model_inr (fields : Loc → gmap string pyval → ErrorList + A)
    loc d name a :
  required (validate_model fields) loc d name = inr a →
  ∃ d', (v ← d !! name; dict_validator v) = Some d' ∧
        fields (loc ++ [name]) d' = inr a.
Proof.
  unfold required. destruct (d !! name) as [v|]; [|done]. simpl.
  unfold validate_model. destruct v; try done;
    destruct (dict_validator _) as [d'|]; try done; eauto.
Qed.

Lemma required_str_fault loc d name kind :
  str_fault (d !! name) = Some kind →
  (loc ++ [name], kind) ∈ errors_of (required validate_str loc d name).
Proof.
  unfold required, str_fault. destruct (d !! name) as [v|]; simpl.
  - unfold validate_str. destruct v; simpl; intros [= <-]; apply list_elem_of_here.
  - intros [= <-]. apply list_elem_of_here.
Qed.

Lemma required_model_fault (fields : Loc → gmap string pyval → ErrorList + A)
    loc d name kind :
  model_fault (d !! name) = Some kind →
  (loc ++ [name], kind) ∈ errors_of (required (validate_model fields) loc d name).
Proof.
  unfold required, model_fault. destruct (d !! name) as [v|]; simpl.
  - unfold validate_model. destruct v; try destruct (dict_validator _);
      simpl; intros [= <-]; apply list_elem_of_here.
  - intros [= <-]. apply list_elem_of_here.
Qed.

Lemma required_model_descend (fields : Loc → gmap string pyval → ErrorList + A)
    loc d name d' e :
  (v ← d !! name; dict_validator v) = Some d' →
  e ∈ errors_of (fields (loc ++ [name]) d') →
  e ∈ errors_of (required (validate_model fields) loc d name).
Proof.
  unfold required. destruct (d !! name) as [v|]; [|done]. simpl.
  unfold validate_model. intros Hd. destruct v; try done; by rewrite Hd.
Qed.

(** A validated dictionary has the keys of the input, each bound to the
    validated value. *)
Lemma validate_mapping_inr (validate : Loc → pyval → ErrorList + A) loc v m :
  validate_mapping validate loc v = inr m →
  ∃ d, dict_validator v = Some d ∧
       ∀ k, m !! k = (v_ ← d !! k; to_ok (validate (loc ++ [k]) v_)) ∧
            (is_Some (d !! k) → is_Some (m !! k)).
Proof.
  unfold validate_mapping. destruct (dict_validator v) as [d|]; [|done].
  case_decide as Hall; [|done]. intros [= <-]. exists d. split; [done|].
  intros k. rewrite lookup_omap, map_lookup_imap.
  destruct (d !! k) as [v_|] eqn:Hk; simpl; [|split; [done|by intros []]].
  split; [done|]. intros _.
  apply (Hall k). by rewrite map_lookup_imap, Hk.
Qed.

End validation.

(** ** What a successful parse tells about the document *)

Section parse.

Import pydantic.

Implicit Types (loc : Loc) (obj az d : gmap string pyval).

Lemma ResourceConfig_validate_inr loc v r :
  ResourceConfig.validate loc v = inr r →
  ∃ d s, dict_validator v = Some d ∧
         (x ← d !! "cluster_name"; str_validator x) = Some s ∧
         r = ResourceConfig.Build (PStr s).
Proof.
  unfold ResourceConfig.validate, validate_model.
  destruct v; try done; destruct (dict_validator _) as [dd|] eqn:Hd; try done;
    unfold ResourceConfig.fields; intros (g & s' & [= <-] & Hs & ->)%ap_inr;
    apply required_str_inr in Hs; eauto.
Qed.

Lemma ResourceConfig_validate_populated loc v r :
  ResourceConfig.validate loc v = inr r → ResourceConfig.populated r.
Proof. intros (d & s & _ & _ & ->)%ResourceConfig_validate_inr. by exists s. Qed.

Lemma or_dict_Some {A} (m : gmap string A) : or_dict (Some m) = m.
Proof.
  unfold or_dict. case_decide as Hs; [|done].
  symmetry. by apply map_size_empty_iff.
Qed.

(** The table made by the validator of [resources]: its items are the
    validated items of the document, its factory returns the item stored
    under ["__default__"], or else the record made in the validator. *)
Lemma validate_resources_inr loc az t :
  AzureMLConfig.validate_resources loc az = inr t →
  DefaultConfigDict.default_factory t =
    Some (default (ResourceConfig.Build (PStr "{cluster_name}"))
            (DefaultConfigDict.data t !! "__default__")) ∧
  ∀ k, DefaultConfigDict.data t !! k =
         (v ← raw_resources az !! k;
          to_ok (ResourceConfig.validate (loc ++ ["resources"] ++ [k]) v)) ∧
       (is_Some (raw_resources az !! k) → is_Some (DefaultConfigDict.data t !! k)).
Proof.
  unfold AzureMLConfig.validate_resources, raw_resources.
  assert (Hnone : ∀ t0, @inr ErrorList _ (AzureMLConfig._validate_resources None) = inr t0 →
    DefaultConfigDict.default_factory t0 =
      Some (default (ResourceConfig.Build (PStr "{cluster_name}"))
              (DefaultConfigDict.data t0 !! "__default__")) ∧
    ∀ k, DefaultConfigDict.data t0 !! k =
           (v ← (∅ : gmap string pyval) !! k;
            to_ok (ResourceConfig.validate (loc ++ ["resources"] ++ [k]) v)) ∧
         (is_Some ((∅ : gmap string pyval) !! k) → is_Some (DefaultConfigDict.data t0 !! k))).
  { intros t0 [= <-]. split; [done|]. intros k. simpl.
    rewrite !lookup_empty. split; [done|]. by intros []. }
  assert (Hsome : ∀ v,
    match validate_mapping ResourceConfig.validate (loc ++ ["resources"]) v with
    | inr value => inr (AzureMLConfig._validate_resources (Some value))
    | inl e => inl e
    end = inr t →
    DefaultConfigDict.default_factory t =
      Some (default (ResourceConfig.Build (PStr "{cluster_name}"))
              (DefaultConfigDict.data t !! "__default__")) ∧
    ∀ k, DefaultConfigDict.data t !! k =
           (v_ ← default ∅ (dict_validator v) !! k;
            to_ok (ResourceConfig.validate (loc ++ ["resources"] ++ [k]) v_)) ∧
         (is_Some (default ∅ (dict_validator v) !! k) →
          is_Some (DefaultConfigDict.data t !! k))).
  { intros v. destruct (validate_mapping _ _ v) as [|m] eqn:Hm; [done|].
    intros [= <-]. apply validate_mapping_inr in Hm as (d & -> & Hd).
    unfold AzureMLConfig._validate_resources, AzureMLConfig._create_default_dict_with.
    rewrite or_dict_Some. simpl. split; [done|].
    intros k. specialize (Hd k). rewrite <-(assoc_L (++)) in Hd. apply Hd. }
  destruct (az !! "resources") as [v|] eqn:Hres; simpl; [|by apply Hnone].
  destruct v; first [by apply Hnone | by apply Hsome].
Qed.

Lemma section_at_cons d name rest d' :
  (v ← d !! name; dict_validator v) = Some d' →
  section_at d (name :: rest) = section_at d' rest.
Proof.
  simpl. destruct (d !! name) as [v|]; [|done]. simpl. by intros ->.
Qed.

(** The sections and fields behind a configuration that was returned. *)
Lemma parse_obj_inv obj config :
  KedroAzureMLConfig.parse_obj obj = Ok config →
  ∃ az ts dk,
    section_at obj ["azure"] = Some az ∧
    section_at obj ["azure"; "temporary_storage"] = Some ts ∧
    section_at obj ["docker"] = Some dk ∧
    AzureMLConfig.fields ["azure"] az = inr (KedroAzureMLConfig.azure config) ∧
    AzureTempStorageConfig.fields ["azure"; "temporary_storage"] ts =
      inr (AzureMLConfig.temporary_storage (KedroAzureMLConfig.azure config)) ∧
    DockerConfig.fields ["docker"] dk = inr (KedroAzureMLConfig.docker config).
Proof.
  unfold KedroAzureMLConfig.parse_obj.
  destruct (KedroAzureMLConfig.fields [] obj) as [|c] eqn:Hc; [done|].
  intros [= <-]. unfold KedroAzureMLConfig.fields in Hc.
  apply ap_inr in Hc as (g & dk_ & Hc & Hdk & ->).
  apply ap_inr in Hc as (g' & az_ & [= <-] & Haz & ->).
  apply required_model_inr in Haz as (az & Haz & Hazf).
  apply required_model_inr in Hdk as (dk & Hdk & Hdkf).
  simpl in Hazf, Hdkf. pose proof Hazf as Hazf'.
  unfold AzureMLConfig.fields in Hazf'.
  apply ap_inr in Hazf' as (g1 & res & Hazf' & Hres & Heq).
  apply ap_inr in Hazf' as (g2 & ts_ & Hazf' & Hts & ->).
  apply required_model_inr in Hts as (ts & Hts & Htsf). simpl in Htsf.
  exists az, ts, dk.
  rewrite !(section_at_cons obj "azure" _ az Haz), (section_at_cons obj "docker" _ dk Hdk).
  rewrite (section_at_cons az "temporary_storage" _ ts Hts). simpl.
  split_and!; try done.
  rewrite Htsf. f_equal.
  repeat match goal with
         | H : _ <*> _ = inr _ |- _ => apply ap_inr in H as (? & ? & H & ? & ->)
         end.
  injection Hazf' as <-. by subst az_.
Qed.

End parse.

(** ** Tables built by [parse_obj] *)

Section built.

Import DefaultConfigDict.

Implicit Types (t : DefaultConfigDict.t) (obj az : gmap string pyval).

Lemma AzureMLConfig_fields_resources loc az a :
  AzureMLConfig.fields loc az = inr a →
  AzureMLConfig.validate_resources loc az = inr (AzureMLConfig.resources a).
Proof.
  unfold AzureMLConfig.fields. intros (g & res & H & Hres & ->)%ap_inr.
  repeat match goal with
         | H : _ <*> _ = inr _ |- _ => apply ap_inr in H as (? & ? & H & ? & ->)
         end.
  by injection H as <-.
Qed.

Lemma AzureMLConfig_fields_str loc az a :
  AzureMLConfig.fields loc az = inr a →
  (v ← az !! "experiment_name"; pydantic.str_validator v) = Some (AzureMLConfig.experiment_name a) ∧
  (v ← az !! "workspace_name"; pydantic.str_validator v) = Some (AzureMLConfig.workspace_name a) ∧
  (v ← az !! "resource_group"; pydantic.str_validator v) = Some (AzureMLConfig.resource_group a) ∧
  (v ← az !! "cluster_name"; pydantic.str_validator v) = Some (AzureMLConfig.cluster_name a).
Proof.
  unfold AzureMLConfig.fields. intros (g & res & H & Hres & ->)%ap_inr.
  repeat match goal with
         | H : _ <*> _ = inr _ |- _ => apply ap_inr in H as (? & ? & H & ? & ->)
         end.
  injection H as <-. simpl. split_and!; by apply (required_str_inr loc).
Qed.

(** The table of a validated [AzureMLConfig]: what it stores and what its
    factory returns, in terms of the section it was made from. *)
Lemma fields_resources loc az a :
  AzureMLConfig.fields loc az = inr a →
  default_factory (AzureMLConfig.resources a) =
    Some (default (ResourceConfig.Build (PStr "{cluster_name}"))
            (data (AzureMLConfig.resources a) !! "__default__")) ∧
  ∀ k, data (AzureMLConfig.resources a) !! k =
         (v ← raw_resources az !! k;
          pydantic.to_ok (ResourceConfig.validate (loc ++ ["resources"] ++ [k]) v)) ∧
       (is_Some (raw_resources az !! k) →
        is_Some (data (AzureMLConfig.resources a) !! k)).
Proof. intros Hf. by apply validate_resources_inr, AzureMLConfig_fields_resources. Qed.

Lemma parse_obj_resources obj config :
  KedroAzureMLConfig.parse_obj obj = Ok config →
  ∃ az, section_at obj ["azure"] = Some az ∧
    default_factory (AzureMLConfig.resources (KedroAzureMLConfig.azure config)) =
      Some (default (ResourceConfig.Build (PStr "{cluster_name}"))
              (data (AzureMLConfig.resources (KedroAzureMLConfig.azure config))
                 !! "__default__")) ∧
    ∀ k, data (AzureMLConfig.resources (KedroAzureMLConfig.azure config)) !! k =
           (v ← raw_resources az !! k;
            pydantic.to_ok (ResourceConfig.validate (["azure"] ++ ["resources"] ++ [k]) v)) ∧
         (is_Some (raw_resources az !! k) →
          is_Some (data (AzureMLConfig.resources (KedroAzureMLConfig.azure config)) !! k)).
Proof.
  intros (az & ts & dk & Haz & _ & _ & Hf & _)%parse_obj_inv.
  exists az. split; [done|]. by apply fields_resources.
Qed.

Lemma data_populated loc (m : gmap string pyval) k r :
  (v ← m !! k; pydantic.to_ok (ResourceConfig.validate loc v)) = Some r →
  ResourceConfig.populated r.
Proof.
  destruct (m !! k) as [v|]; [|done]. simpl.
  destruct (ResourceConfig.validate loc v) as [|r'] eqn:Hv; [done|].
  intros [= <-]. by eapply ResourceConfig_validate_populated.
Qed.

Lemma fields_table_inv loc az a :
  AzureMLConfig.fields loc az = inr a →
  ∃ D, table_inv D (AzureMLConfig.resources a).
Proof.
  intros (Hf & Hd)%fields_resources.
  eexists. split_and!; [exact Hf| | |].
  - destruct (data _ !! "__default__") as [r|] eqn:Hr; simpl; [|by eexists].
    rewrite (proj1 (Hd _)) in Hr. by eapply data_populated.
  - by intros r ->.
  - intros k r Hr. rewrite (proj1 (Hd _)) in Hr. by eapply data_populated.
Qed.

Lemma parsed_fields a : parsed a → ∃ loc az, AzureMLConfig.fields loc az = inr a.
Proof.
  intros [[az Hp]|(obj & config & Hp & <-)].
  - unfold AzureMLConfig.parse_obj in Hp.
    destruct (AzureMLConfig.fields [] az) as [|a'] eqn:Hf; [done|].
    injection Hp as ->. eauto.
  - apply parse_obj_inv in Hp as (az & _ & _ & _ & _ & _ & Hf & _). eauto.
Qed.

Lemma parse_obj_table_inv obj config :
  KedroAzureMLConfig.parse_obj obj = Ok config →
  ∃ D, table_inv D (AzureMLConfig.resources (KedroAzureMLConfig.azure config)).
Proof.
  intros (az & _ & _ & _ & _ & _ & Hf & _)%parse_obj_inv.
  by eapply fields_table_inv.
Qed.

Lemma built_by_parse_inv t : built_by_parse t → ∃ D, table_inv D t.
Proof.
  intros (a & (loc & az & Hf)%parsed_fields & Hrtc).
  destruct (fields_table_inv loc az a Hf) as [D HD].
  exists D. by eapply table_inv_rtc.
Qed.

Lemma built_by_parse_init obj config :
  KedroAzureMLConfig.parse_obj obj = Ok config →
  built_by_parse (AzureMLConfig.resources (KedroAzureMLConfig.azure config)).
Proof.
  intros Hp. exists (KedroAzureMLConfig.azure config).
  split; [right; eauto|apply rtc_refl].
Qed.

Lemma table_inv_resolve D t key :
  table_inv D t →
  ∃ t', resolve t key = Ok (default D (data t !! key), t') ∧ table_inv D t' ∧
        ResourceConfig.populated (default D (data t !! key)).
Proof.
  intros Hinv. pose proof Hinv as (Hf & HD & Hd & Hall).
  assert (Hp : ResourceConfig.populated (default D (data t !! key))).
  { destruct (data t !! key) as [E|] eqn:Hk; simpl; [by apply (Hall key)|done]. }
  eexists. split_and!; [|eapply table_inv_step; [done|]; eexists _, _|done].
  - rewrite (resolve_spec t D key Hf Hd), (merge_populated_r D _ Hp). done.
  - apply (resolve_spec t D key Hf Hd).
Qed.

End built.

(** ** Properties of the resource lookup *)

Section lookup_properties.

Import DefaultConfigDict.

Abbreviation RC s := (ResourceConfig.Build (PStr s)).

Lemma doc_A_B_parses :
  ∃ config, KedroAzureMLConfig.parse_obj doc_A_B = Ok config.
Proof. eexists. vm_compute. reflexivity. Qed.

Lemma built_table_of obj :
  (∃ config, KedroAzureMLConfig.parse_obj obj = Ok config) →
  built_by_parse (table_of obj).
Proof.
  intros [config Hp]. unfold table_of. rewrite Hp.
  by apply (built_by_parse_init obj).
Qed.

(** C1. In a table built by parsing, with default record [D]: a key other
    than ["__default__"] that stores a record [E] resolves to [D] with the
    fields that [E] sets taken from [E] and the others from [D]; a key that
    stores nothing resolves to [D]; ["__default__"] resolves to [D].  For
    the resources [{__default__: {cluster_name: A}, foo: {cluster_name: B}}],
    ["foo"] resolves to cluster [B] and any key not in the document to
    cluster [A]. *)
Theorem C1_resolve_overrides_default :
  (∀ t, built_by_parse t →
     ∃ D, default_factory t = Some D ∧
       (∀ k E, k ≠ "__default__" → data t !! k = Some E →
          ∃ r t', resolve t k = Ok (r, t') ∧
            (∀ f v, ResourceConfig.dict_exclude_none E !! f = Some v →
                    ResourceConfig.dict r !! f = Some v) ∧
            (∀ f, ResourceConfig.dict_exclude_none E !! f = None →
                  ResourceConfig.dict r !! f = ResourceConfig.dict D !! f)) ∧
       (∀ k, k ≠ "__default__" → data t !! k = None →
          ∃ t', resolve t k = Ok (D, t')) ∧
       (∃ t', resolve t "__default__" = Ok (D, t'))) ∧
  (∀ obj az config bar,
     KedroAzureMLConfig.parse_obj obj = Ok config →
     section_at obj ["azure"] = Some az →
     raw_resources az = resources_A_B →
     resources_A_B !! bar = None →
     (∃ t', resolve (AzureMLConfig.resources (KedroAzureMLConfig.azure config)) "foo"
            = Ok (RC "B", t')) ∧
     (∃ t', resolve (AzureMLConfig.resources (KedroAzureMLConfig.azure config)) bar
            = Ok (RC "A", t'))).
Proof.
  split.
  - intros t [D Hinv]%built_by_parse_inv.
    pose proof Hinv as (Hf & HD & Hd & Hall).
    exists D. split_and!; [done| | |].
    + intros k E Hk HE. eexists _, _.
      split; [apply (resolve_spec t D k Hf Hd)|]. rewrite HE. simpl.
      unfold ResourceConfig.dict. split.
      * intros f v Hv.
        destruct (decide (f = "cluster_name")) as [->|Hne].
        -- rewrite lookup_singleton_eq. f_equal. by apply merge_set.
        -- destruct E as [[]]; simpl in Hv;
             by rewrite ?lookup_empty, ?lookup_singleton_ne in Hv.
      * intros f Hv.
        destruct (decide (f = "cluster_name")) as [->|Hne].
        -- rewrite !lookup_singleton_eq. f_equal. by apply merge_unset.
        -- by rewrite !lookup_singleton_ne.
    + intros k Hk Hnone. eexists.
      rewrite (resolve_spec t D k Hf Hd), Hnone. simpl. by rewrite merge_self.
    + destruct (table_inv_resolve D t "__default__" Hinv) as (t' & -> & _ & _).
      exists t'. do 2 f_equal.
      destruct (data t !! "__default__") as [r|] eqn:Hr; simpl; [|done].
      by rewrite (Hd r).
  - intros obj az config bar Hp Haz Hraw Hbar.
    destruct (parse_obj_resources obj config Hp) as (az' & Haz' & Hf & Hdata).
    assert (az' = az) as -> by congruence. rewrite Hraw in Hdata.
    destruct (parse_obj_table_inv obj config Hp) as [D Hinv].
    set (t := AzureMLConfig.resources (KedroAzureMLConfig.azure config)) in *.
    assert (Hdef : data t !! "__default__" = Some (RC "A")).
    { by rewrite (proj1 (Hdata _)). }
    assert (Hfoo : data t !! "foo" = Some (RC "B")).
    { by rewrite (proj1 (Hdata _)). }
    assert (D = RC "A") as ->.
    { destruct Hinv as (_ & _ & Hd & _). symmetry. by apply Hd. }
    split.
    + destruct (table_inv_resolve _ t "foo" Hinv) as (t' & -> & _ & _).
      rewrite Hfoo. by eexists.
    + destruct (table_inv_resolve _ t bar Hinv) as (t' & -> & _ & _).
      rewrite (proj1 (Hdata _)), Hbar. by eexists.
Qed.

Lemma C1_witness :
  (∃ t', resolve (table_of doc_A_B) "foo" = Ok (RC "B", t')) ∧
  (∃ t', resolve (table_of doc_A_B) "bar" = Ok (RC "A", t')) ∧
  (∃ t', resolve (table_of doc_A_B) "__default__" = Ok (RC "A", t')).
Proof.
  eassert (Hp : KedroAzureMLConfig.parse_obj doc_A_B = Ok _)
    by (vm_compute; reflexivity).
  destruct (proj2 C1_resolve_overrides_default doc_A_B
              (azure_section (PStr "A") {[ "resources" := PDict resources_A_B ]})
              _ "bar" Hp eq_refl eq_refl eq_refl) as [Hfoo Hbar].
  destruct (proj1 C1_resolve_overrides_default (table_of doc_A_B)
              (built_table_of doc_A_B (ex_intro _ _ Hp)))
    as (D & HD & _ & _ & Hdef).
  vm_compute in HD. injection HD as <-.
  split_and!; [exact Hfoo|exact Hbar|exact Hdef].
Defined.

(** C3. In a table built by parsing, every string key resolves: the lookup
    returns a record whose field is populated and never raises. *)
Theorem C3_resolve_never_fails t key :
  built_by_parse t →
  ∃ r t', resolve t key = Ok (r, t') ∧ ResourceConfig.populated r.
Proof.
  intros [D Hinv]%built_by_parse_inv.
  destruct (table_inv_resolve D t key Hinv) as (t' & Hr & _ & Hp). eauto.
Qed.

Lemma C3_witness :
  (∃ r t', resolve (table_of doc_A_B) "" = Ok (r, t') ∧ ResourceConfig.populated r) ∧
  (∃ r t', resolve (table_of doc_A_B) "my__default__key" = Ok (r, t') ∧
           ResourceConfig.populated r).
Proof.
  split; apply C3_resolve_never_fails, built_table_of, doc_A_B_parses.
Defined.

(** C5. In a table built by parsing, resolving the same key twice in a row
    returns the same record both times. *)
Theorem C5_resolve_twice_same t key :
  built_by_parse t →
  ∃ r t1 t2, resolve t key = Ok (r, t1) ∧ resolve t1 key = Ok (r, t2).
Proof.
  intros [D Hinv]%built_by_parse_inv.
  pose proof Hinv as (Hf & HD & Hd & Hall).
  destruct (table_inv_resolve D t key Hinv) as (t1 & Hr1 & Hinv1 & Hp).
  destruct (table_inv_resolve D t1 key Hinv1) as (t2 & Hr2 & _ & _).
  exists (default D (data t !! key)), t1, t2. split; [done|].
  rewrite Hr2. do 2 f_equal.
  rewrite (resolve_spec t D key Hf Hd) in Hr1. injection Hr1 as _ <-.
  simpl. by rewrite lookup_insert_eq.
Qed.

Lemma C5_witness :
  ∃ r t1 t2, resolve (table_of doc_plain) "foo" = Ok (r, t1) ∧
             resolve t1 "foo" = Ok (r, t2).
Proof.
  apply C5_resolve_twice_same, built_table_of.
  eexists. vm_compute. reflexivity.
Defined.

End lookup_properties.

Section lookup_effects.

Import DefaultConfigDict.

(** C6, as stated, fails: the lookup of a key that the table does not store
    binds that key (and ["__default__"]) in the table, as [defaultdict]
    does on a miss. *)
Lemma C6_counterexample :
  ∃ r t',
    resolve (table_of doc_plain) "foo" = Ok (r, t') ∧
    data (table_of doc_plain) !! "foo" = None ∧
    data t' !! "foo" = Some r ∧
    data t' ≠ data (table_of doc_plain).
Proof.
  eexists _, _. split_and!.
  - vm_compute. reflexivity.
  - vm_compute. reflexivity.
  - vm_compute. reflexivity.
  - intros Heq. apply (f_equal (λ m, m !! "foo")) in Heq.
    vm_compute in Heq. discriminate Heq.
Qed.

(** C6, amended. A lookup in a table built by parsing changes no stored
    record and removes none, and keeps the factory; the only bindings it
    adds are those of the key looked up and of ["__default__"], when they
    were missing, both to the default record; and every key resolves
    afterwards to what it resolved to before. *)
Theorem C6_resolve_only_adds_defaults t key r t' :
  built_by_parse t →
  resolve t key = Ok (r, t') →
  default_factory t' = default_factory t ∧
  (∀ k v, data t !! k = Some v → data t' !! k = Some v) ∧
  (∀ k, data t !! k = None →
        data t' !! k =
          if decide (k = key ∨ k = "__default__") then default_factory t else None) ∧
  (∀ k, returned (resolve t' k) = returned (resolve t k)).
Proof.
  intros [D Hinv]%built_by_parse_inv Hr.
  pose proof Hinv as (Hf & HD & Hd & Hall).
  assert (Hinv' : table_inv D t').
  { eapply table_inv_step; [done|]. by eexists _, _. }
  pose proof Hinv' as (Hf' & _ & Hd' & _).
  rewrite (resolve_spec t D key Hf Hd) in Hr. injection Hr as _ <-.
  assert (Hsome : ∀ k v, data t !! k = Some v →
    (<[key := default D (data t !! key)]> (<["__default__" := D]> (data t)))
      !! k = Some v).
  { intros k v Hk.
    destruct (decide (key = k)) as [->|Hne].
    - by rewrite lookup_insert_eq, Hk.
    - rewrite lookup_insert_ne by done.
      destruct (decide ("__default__" = k)) as [<-|Hne'].
      + rewrite lookup_insert_eq. f_equal. symmetry. by apply Hd.
      + by rewrite lookup_insert_ne. }
  assert (Hnone : ∀ k, data t !! k = None →
    (<[key := default D (data t !! key)]> (<["__default__" := D]> (data t)))
      !! k = if decide (k = key ∨ k = "__default__") then Some D else None).
  { intros k Hk.
    destruct (decide (key = k)) as [->|Hne].
    - rewrite lookup_insert_eq, Hk. simpl. by rewrite decide_True by auto.
    - rewrite lookup_insert_ne by done.
      destruct (decide ("__default__" = k)) as [<-|Hne'].
      + rewrite lookup_insert_eq. by rewrite decide_True by auto.
      + rewrite lookup_insert_ne, Hk by done.
        rewrite decide_False; [done|]. intros [->| ->]; done. }
  simpl. rewrite Hf. split_and!; [done|exact Hsome|exact Hnone|].
  intros k. rewrite (resolve_spec _ D k Hf' Hd'), (resolve_spec t D k Hf Hd).
  simpl. f_equal. f_equal.
  destruct (data t !! k) as [v|] eqn:Hk.
  - by rewrite (Hsome k v Hk).
  - rewrite (Hnone k Hk). by case_decide.
Qed.

Lemma C6_witness :
  ∃ r t',
    resolve (table_of doc_A_B) "bar" = Ok (r, t') ∧
    data t' !! "foo" = Some (ResourceConfig.Build (PStr "B")) ∧
    returned (resolve t' "foo") = returned (resolve (table_of doc_A_B) "foo").
Proof.
  eassert (Hr : resolve (table_of doc_A_B) "bar" = Ok _)
    by (vm_compute; reflexivity).
  destruct (C6_resolve_only_adds_defaults (table_of doc_A_B) "bar" _ _
              (built_table_of doc_A_B doc_A_B_parses) Hr)
    as (_ & Hkeep & _ & Hsame).
  eexists _, _. split_and!; [exact Hr| |exact (Hsame "foo")].
  apply Hkeep. vm_compute. reflexivity.
Defined.

End lookup_effects.

(** ** The default record of a parsed table *)

Section default_record.

Import DefaultConfigDict pydantic.

Implicit Types (t : DefaultConfigDict.t) (obj az d : gmap string pyval).

Lemma required_str_ok loc d name s :
  (v ← d !! name; str_validator v) = Some s →
  required validate_str loc d name = inr s.
Proof.
  unfold required. destruct (d !! name) as [v|]; [|done]. simpl.
  unfold validate_str. destruct v; simpl; by intros [= <-].
Qed.

Lemma required_model_ok {A} (fields : Loc → gmap string pyval → ErrorList + A)
    loc d name d' :
  (v ← d !! name; dict_validator v) = Some d' →
  required (validate_model fields) loc d name = fields (loc ++ [name]) d'.
Proof.
  unfold required. destruct (d !! name) as [v|]; [|done]. simpl.
  unfold validate_model. intros Hd. destruct v; try done; by rewrite Hd.
Qed.

Lemma section_at_cons_inv d name rest d'' :
  section_at d (name :: rest) = Some d'' →
  ∃ d', (v ← d !! name; dict_validator v) = Some d' ∧ section_at d' rest = Some d''.
Proof.
  simpl. destruct (d !! name) as [v|]; [|done]. simpl.
  destruct (dict_validator v) as [d'|]; [|done]. simpl. eauto.
Qed.

Lemma all_default_resolve D t key :
  all_default D t →
  ∃ t', resolve t key = Ok (D, t') ∧ all_default D t'.
Proof.
  intros [Hf Hall].
  assert (Hd : ∀ r, data t !! "__default__" = Some r → r = D).
  { intros r Hr. by apply (Hall "__default__"). }
  assert (Hk : default D (data t !! key) = D).
  { destruct (data t !! key) as [E|] eqn:HE; simpl; [|done]. by apply (Hall key). }
  eexists. split.
  - by rewrite (resolve_spec t D key Hf Hd), Hk, merge_self.
  - split; [done|]. simpl.
    apply map_Forall_insert_2; [done|]. by apply map_Forall_insert_2.
Qed.

Lemma all_default_rtc D t t' :
  all_default D t → rtc lookup_step t t' → all_default D t'.
Proof.
  intros HD Hrtc. induction Hrtc as [|t t1 t2 (key & r & Hr) _ IH]; [done|].
  apply IH. destruct (all_default_resolve D t key HD) as (t' & Hr' & HD').
  congruence.
Qed.

(** C2, as stated, fails: with a role but no ["__default__"] under
    [resources], the default record carries the text [{cluster_name}] of the
    validator, not the cluster name written at the root of [azure]. *)
Lemma C2_counterexample :
  ∃ az config r t',
    doc_no_default !! "azure" = Some (PDict az) ∧
    raw_resources az !! "__default__" = None ∧
    raw_resources az !! "train" = None ∧
    KedroAzureMLConfig.parse_obj doc_no_default = Ok config ∧
    AzureMLConfig.cluster_name (KedroAzureMLConfig.azure config) = "cpu-cluster" ∧
    default_factory (AzureMLConfig.resources (KedroAzureMLConfig.azure config))
      = Some (ResourceConfig.Build (PStr "{cluster_name}")) ∧
    resolve (AzureMLConfig.resources (KedroAzureMLConfig.azure config)) "train"
      = Ok (r, t') ∧
    ResourceConfig.cluster_name r = PStr "{cluster_name}" ∧
    ResourceConfig.cluster_name r
      ≠ PStr (AzureMLConfig.cluster_name (KedroAzureMLConfig.azure config)).
Proof.
  eexists _, _, _, _. split_and!; try (vm_compute; reflexivity).
  vm_compute. discriminate.
Qed.

(** C2, amended. When the [resources] of a parsed document have no
    ["__default__"] entry, the default record of the table has the cluster
    name [{cluster_name}], the text written in the validator; every key
    absent from [resources] resolves to that record; and it is the cluster
    name of the root only if the root's is that same text. *)
Theorem C2_default_is_placeholder obj az config :
  KedroAzureMLConfig.parse_obj obj = Ok config →
  section_at obj ["azure"] = Some az →
  raw_resources az !! "__default__" = None →
  default_factory (AzureMLConfig.resources (KedroAzureMLConfig.azure config))
    = Some (ResourceConfig.Build (PStr "{cluster_name}")) ∧
  (∀ k, raw_resources az !! k = None →
     ∃ t', resolve (AzureMLConfig.resources (KedroAzureMLConfig.azure config)) k
           = Ok (ResourceConfig.Build (PStr "{cluster_name}"), t')) ∧
  (PStr (AzureMLConfig.cluster_name (KedroAzureMLConfig.azure config))
     = PStr "{cluster_name}" ↔
   raw_str obj ["azure"] "cluster_name" = Some "{cluster_name}").
Proof.
  intros Hp Haz Hnodef.
  destruct (parse_obj_resources obj config Hp) as (az' & Haz' & Hf & Hdata).
  assert (az' = az) as -> by congruence.
  destruct (parse_obj_table_inv obj config Hp) as [D Hinv].
  set (t := AzureMLConfig.resources (KedroAzureMLConfig.azure config)) in *.
  assert (Hdef : data t !! "__default__" = None).
  { by rewrite (proj1 (Hdata _)), Hnodef. }
  rewrite Hdef in Hf. simpl in Hf.
  assert (D = ResourceConfig.Build (PStr "{cluster_name}")) as ->.
  { destruct Hinv as (Hf' & _). congruence. }
  split_and!; [done| |].
  - intros k Hk.
    destruct (table_inv_resolve _ t k Hinv) as (t' & -> & _ & _).
    rewrite (proj1 (Hdata _)), Hk. by eexists.
  - apply parse_obj_inv in Hp as (az2 & ts & dk & Haz2 & _ & _ & Hfields & _).
    assert (az2 = az) as -> by congruence.
    apply AzureMLConfig_fields_str in Hfields as (_ & _ & _ & Hc).
    unfold raw_str. rewrite Haz. simpl. rewrite Hc.
    split; intros [= ->]; done.
Qed.

Lemma C2_witness :
  ∃ t', resolve (table_of doc_no_default) "train"
        = Ok (ResourceConfig.Build (PStr "{cluster_name}"), t').
Proof.
  eassert (Hp : KedroAzureMLConfig.parse_obj doc_no_default = Ok _)
    by (vm_compute; reflexivity).
  destruct (C2_default_is_placeholder doc_no_default _ _ Hp eq_refl eq_refl)
    as (_ & Hres & _).
  apply (Hres "train"). vm_compute. reflexivity.
Defined.

End default_record.

(** ** Documents without a [resources] section *)

Section no_resources.

Import DefaultConfigDict pydantic.

Implicit Types (t : DefaultConfigDict.t) (obj az d : gmap string pyval).

Lemma raw_str_Some obj sec name s :
  raw_str obj sec name = Some s →
  ∃ d, section_at obj sec = Some d ∧ (v ← d !! name; str_validator v) = Some s.
Proof.
  unfold raw_str. destruct (section_at obj sec) as [d|]; [|done]. simpl. eauto.
Qed.

Lemma section_at_one d name d' :
  section_at d [name] = Some d' ↔ (v ← d !! name; dict_validator v) = Some d'.
Proof.
  simpl. destruct (d !! name) as [v|]; [|done]. simpl.
  by destruct (dict_validator v).
Qed.

(** A document whose sections are mappings and whose [str] fields validate
    is accepted, whatever stands under [resources] being valid too. *)
Lemma parse_obj_ok obj az res :
  section_at obj ["azure"] = Some az →
  (∀ sec name, (sec, name) ∈ str_fields → is_Some (raw_str obj sec name)) →
  AzureMLConfig.validate_resources ["azure"] az = inr res →
  ∃ config, KedroAzureMLConfig.parse_obj obj = Ok config ∧
            AzureMLConfig.resources (KedroAzureMLConfig.azure config) = res.
Proof.
  intros Haz Hstr Hres.
  destruct (Hstr ["azure"] "experiment_name") as [s1 (d1 & Hd1 & H1)%raw_str_Some];
    [in_list|].
  destruct (Hstr ["azure"] "workspace_name") as [s2 (d2 & Hd2 & H2)%raw_str_Some];
    [in_list|].
  destruct (Hstr ["azure"] "resource_group") as [s3 (d3 & Hd3 & H3)%raw_str_Some];
    [in_list|].
  destruct (Hstr ["azure"] "cluster_name") as [s4 (d4 & Hd4 & H4)%raw_str_Some];
    [in_list|].
  destruct (Hstr ["azure"; "temporary_storage"] "account_name")
    as [s5 (ts & Hts & H5)%raw_str_Some]; [in_list|].
  destruct (Hstr ["azure"; "temporary_storage"] "container")
    as [s6 (ts' & Hts' & H6)%raw_str_Some]; [in_list|].
  destruct (Hstr ["docker"] "image") as [s7 (dk & Hdk & H7)%raw_str_Some];
    [in_list|].
  rewrite Haz in Hd1, Hd2, Hd3, Hd4.
  injection Hd1 as <-. injection Hd2 as <-. injection Hd3 as <-. injection Hd4 as <-.
  rewrite Hts in Hts'. injection Hts' as <-.
  apply section_at_one in Haz, Hdk.
  rewrite (section_at_cons obj "azure" _ az Haz) in Hts.
  apply section_at_one in Hts.
  unfold KedroAzureMLConfig.parse_obj, KedroAzureMLConfig.fields.
  unfold AzureMLConfig.validate, DockerConfig.validate.
  rewrite (required_model_ok _ [] obj "azure" az Haz).
  rewrite (required_model_ok _ [] obj "docker" dk Hdk).
  unfold AzureMLConfig.fields, DockerConfig.fields, AzureTempStorageConfig.validate.
  rewrite (required_model_ok _ _ az "temporary_storage" ts Hts).
  unfold AzureTempStorageConfig.fields.
  rewrite (required_str_ok _ az _ s1 H1), (required_str_ok _ az _ s2 H2).
  rewrite (required_str_ok _ az _ s3 H3), (required_str_ok _ az _ s4 H4).
  rewrite (required_str_ok _ ts _ s5 H5), (required_str_ok _ ts _ s6 H6).
  rewrite (required_str_ok _ dk _ s7 H7).
  simpl. rewrite Hres. simpl. eauto.
Qed.

(** C9. A document without [resources], or with [resources: null], whose
    other fields validate is accepted; its table stores nothing and its
    factory returns the record with cluster name [{cluster_name}], to which
    every key resolves, also after other lookups. *)
Theorem C9_missing_resources obj az :
  section_at obj ["azure"] = Some az →
  (az !! "resources" = None ∨ az !! "resources" = Some PNone) →
  (∀ sec name, (sec, name) ∈ str_fields → is_Some (raw_str obj sec name)) →
  ∃ config,
    KedroAzureMLConfig.parse_obj obj = Ok config ∧
    AzureMLConfig.resources (KedroAzureMLConfig.azure config)
      = Build (Some (ResourceConfig.Build (PStr "{cluster_name}"))) ∅ ∧
    ∀ t, rtc lookup_step
           (AzureMLConfig.resources (KedroAzureMLConfig.azure config)) t →
         ∀ key, ∃ t', resolve t key
                      = Ok (ResourceConfig.Build (PStr "{cluster_name}"), t').
Proof.
  intros Haz Hres Hstr.
  destruct (parse_obj_ok obj az
              (Build (Some (ResourceConfig.Build (PStr "{cluster_name}"))) ∅)
              Haz Hstr) as (config & Hp & Ht).
  { unfold AzureMLConfig.validate_resources. by destruct Hres as [-> | ->]. }
  exists config. split_and!; [done|done|].
  intros t Hrtc key. rewrite Ht in Hrtc.
  eapply all_default_rtc in Hrtc; [|split; [done|apply map_Forall_empty]].
  destruct (all_default_resolve _ t key Hrtc) as (t' & Hr & _). eauto.
Qed.

Lemma str_fields_present obj :
  Forall (λ x, is_Some (raw_str obj x.1 x.2)) str_fields →
  ∀ sec name, (sec, name) ∈ str_fields → is_Some (raw_str obj sec name).
Proof. intros HF sec name Hin. by apply (proj1 (Forall_forall _ _) HF (sec, name)). Qed.

Lemma C9_witness :
  ∃ config,
    KedroAzureMLConfig.parse_obj doc_plain = Ok config ∧
    ∃ t', resolve (AzureMLConfig.resources (KedroAzureMLConfig.azure config)) "any"
          = Ok (ResourceConfig.Build (PStr "{cluster_name}"), t').
Proof.
  destruct (C9_missing_resources doc_plain (azure_section (PStr "cpu-cluster") ∅))
    as (config & Hp & _ & Hres).
  - reflexivity.
  - left. vm_compute. reflexivity.
  - apply str_fields_present. repeat constructor; vm_compute; eauto.
  - exists config. split; [done|]. apply Hres, rtc_refl.
Defined.

End no_resources.

(** ** What validation reports *)

Section errors.

Import pydantic.

Implicit Types (obj az d : gmap string pyval) (e : Loc * error_kind).

(** An error of a field is an error of its model. *)
Lemma DockerConfig_errors loc d e :
  e ∈ errors_of (required validate_str loc d "image") →
  e ∈ errors_of (DockerConfig.fields loc d).
Proof. unfold DockerConfig.fields. rewrite errors_of_ap, elem_of_app. auto. Qed.

Lemma AzureTempStorageConfig_errors loc d e :
  e ∈ errors_of (required validate_str loc d "account_name") ∨
  e ∈ errors_of (required validate_str loc d "container") →
  e ∈ errors_of (AzureTempStorageConfig.fields loc d).
Proof.
  unfold AzureTempStorageConfig.fields. rewrite !errors_of_ap, !elem_of_app. tauto.
Qed.

Lemma AzureMLConfig_errors loc d e :
  e ∈ errors_of (required validate_str loc d "experiment_name") ∨
  e ∈ errors_of (required validate_str loc d "workspace_name") ∨
  e ∈ errors_of (required validate_str loc d "resource_group") ∨
  e ∈ errors_of (required validate_str loc d "cluster_name") ∨
  e ∈ errors_of (required AzureTempStorageConfig.validate loc d "temporary_storage") ∨
  e ∈ errors_of (AzureMLConfig.validate_resources loc d) →
  e ∈ errors_of (AzureMLConfig.fields loc d).
Proof.
  unfold AzureMLConfig.fields. rewrite !errors_of_ap, !elem_of_app. tauto.
Qed.

Lemma KedroAzureMLConfig_errors obj e :
  e ∈ errors_of (required AzureMLConfig.validate [] obj "azure") ∨
  e ∈ errors_of (required DockerConfig.validate [] obj "docker") →
  e ∈ errors_of (KedroAzureMLConfig.fields [] obj).
Proof.
  unfold KedroAzureMLConfig.fields. rewrite !errors_of_ap, !elem_of_app. tauto.
Qed.

Lemma parse_obj_raises obj e :
  e ∈ errors_of (KedroAzureMLConfig.fields [] obj) →
  ∃ errs, KedroAzureMLConfig.parse_obj obj = Raise (ValidationError errs) ∧ e ∈ errs.
Proof.
  intros (errs & Herrs & He)%errors_of_elem.
  exists errs. unfold KedroAzureMLConfig.parse_obj. by rewrite Herrs.
Qed.

Lemma fault_reported obj sec name d kind :
  section_at obj sec = Some d →
  fault d sec name kind →
  (sec ++ [name], kind) ∈ errors_of (KedroAzureMLConfig.fields [] obj).
Proof.
  intros Hsec [[Hin Hf]|[Hin Hf]].
  - unfold str_fields in Hin.
    repeat (apply elem_of_cons in Hin as [[= -> ->]|Hin]);
      [..|by apply elem_of_nil in Hin].
    1-6: apply section_at_cons_inv in Hsec as (az & Haz & Hsec).
    1-4: injection Hsec as <-.
    5-6: apply section_at_one in Hsec.
    7: apply section_at_one in Hsec.
    all: apply KedroAzureMLConfig_errors.
    1-6: left; apply (required_model_descend _ [] obj "azure" az _ Haz);
         apply AzureMLConfig_errors.
    1-4: auto 10 using required_str_fault.
    1-2: do 4 right; left;
         apply (required_model_descend _ ["azure"] az "temporary_storage" d _ Hsec);
         apply AzureTempStorageConfig_errors; auto using required_str_fault.
    right. apply (required_model_descend _ [] obj "docker" d _ Hsec).
    by apply DockerConfig_errors, required_str_fault.
  - unfold model_fields in Hin.
    repeat (apply elem_of_cons in Hin as [[= -> ->]|Hin]);
      [..|by apply elem_of_nil in Hin].
    + injection Hsec as ->. apply KedroAzureMLConfig_errors. left.
      by apply (required_model_fault _ []).
    + apply section_at_one in Hsec. apply KedroAzureMLConfig_errors. left.
      apply (required_model_descend _ [] obj "azure" d _ Hsec).
      apply AzureMLConfig_errors. do 4 right. left.
      by apply (required_model_fault _ ["azure"]).
    + injection Hsec as ->. apply KedroAzureMLConfig_errors. right.
      by apply (required_model_fault _ []).
Qed.

End errors.

(** ** Properties of [parse_obj] *)

Section parse_properties.

Import pydantic.

Implicit Types (obj az d : gmap string pyval).

(** The import of [config.py] validates the template. *)
Example template_parses :
  ∃ config, KedroAzureMLConfig.parse_obj CONFIG_TEMPLATE = Ok config.
Proof. eexists. vm_compute. reflexivity. Qed.

(** C4, as stated, fails for a field of the wrong primitive type: a number
    given for a [str] field is turned into text and the document is
    accepted. *)
Lemma C4_counterexample :
  ∃ az ts config,
    doc_int_account !! "azure" = Some (PDict az) ∧
    az !! "temporary_storage" = Some (PDict ts) ∧
    ts !! "account_name" = Some (PInt 5) ∧
    KedroAzureMLConfig.parse_obj doc_int_account = Ok config ∧
    AzureTempStorageConfig.account_name
      (AzureMLConfig.temporary_storage (KedroAzureMLConfig.azure config)) = "5".
Proof. eexists _, _, _. split_and!; vm_compute; reflexivity. Qed.

(** C4, amended. A document whose [temporary_storage] has no
    [account_name] is refused with a [ValidationError] that lists the
    location [azure, temporary_storage, account_name] as missing, and no
    configuration is returned.  More generally, a document is refused with a
    [ValidationError] listing the location of the field whenever a required
    field is missing, is null, or holds a value that validation does not
    take: a mapping for a [str] field, a scalar other than the empty string
    for a section.  (Numbers and booleans given for a [str] field are taken,
    as their text.) *)
Theorem C4_faults_are_reported obj :
  (∀ az ts,
     obj !! "azure" = Some (PDict az) →
     az !! "temporary_storage" = Some (PDict ts) →
     ts !! "account_name" = None →
     ∃ errs,
       KedroAzureMLConfig.parse_obj obj = Raise (ValidationError errs) ∧
       (["azure"; "temporary_storage"; "account_name"], MissingError) ∈ errs) ∧
  (∀ sec name d kind,
     section_at obj sec = Some d →
     fault d sec name kind →
     ∃ errs,
       KedroAzureMLConfig.parse_obj obj = Raise (ValidationError errs) ∧
       (sec ++ [name], kind) ∈ errs).
Proof.
  assert (Hgen : ∀ sec name d kind,
     section_at obj sec = Some d → fault d sec name kind →
     ∃ errs,
       KedroAzureMLConfig.parse_obj obj = Raise (ValidationError errs) ∧
       (sec ++ [name], kind) ∈ errs).
  { intros sec name d kind Hsec Hf.
    by eapply parse_obj_raises, fault_reported. }
  split; [|exact Hgen].
  intros az ts Haz Hts Hacc.
  apply (Hgen ["azure"; "temporary_storage"] "account_name" ts MissingError).
  - simpl. rewrite Haz. simpl. by rewrite Hts.
  - left. split; [in_list|]. by rewrite Hacc.
Qed.

Lemma C4_witness :
  ∃ errs,
    KedroAzureMLConfig.parse_obj doc_no_account = Raise (ValidationError errs) ∧
    (["azure"; "temporary_storage"; "account_name"], MissingError) ∈ errs.
Proof.
  eapply (proj1 (C4_faults_are_reported doc_no_account)); reflexivity.
Defined.

(** C7, as stated, fails: a document whose [str] fields are all the empty
    string is accepted, and the configuration holds the empty strings. *)
Lemma C7_counterexample :
  ∃ config,
    KedroAzureMLConfig.parse_obj doc_empty_strings = Ok config ∧
    raw_str doc_empty_strings ["azure"] "experiment_name" = Some "" ∧
    AzureMLConfig.experiment_name (KedroAzureMLConfig.azure config) = "" ∧
    AzureMLConfig.cluster_name (KedroAzureMLConfig.azure config) = "" ∧
    AzureTempStorageConfig.account_name
      (AzureMLConfig.temporary_storage (KedroAzureMLConfig.azure config)) = "" ∧
    DockerConfig.image (KedroAzureMLConfig.docker config) = "".
Proof. eexists. split_and!; vm_compute; reflexivity. Qed.

(** C7, amended. Validation happens in [parse_obj]: in every document that
    it accepts, each required [str] field is present in its section with a
    value that validates as text, and the configuration holds that text.
    The text may be empty. *)
Theorem C7_accepted_fields_present obj config :
  KedroAzureMLConfig.parse_obj obj = Ok config →
  raw_str obj ["azure"] "experiment_name"
    = Some (AzureMLConfig.experiment_name (KedroAzureMLConfig.azure config)) ∧
  raw_str obj ["azure"] "workspace_name"
    = Some (AzureMLConfig.workspace_name (KedroAzureMLConfig.azure config)) ∧
  raw_str obj ["azure"] "resource_group"
    = Some (AzureMLConfig.resource_group (KedroAzureMLConfig.azure config)) ∧
  raw_str obj ["azure"] "cluster_name"
    = Some (AzureMLConfig.cluster_name (KedroAzureMLConfig.azure config)) ∧
  raw_str obj ["azure"; "temporary_storage"] "account_name"
    = Some (AzureTempStorageConfig.account_name
              (AzureMLConfig.temporary_storage (KedroAzureMLConfig.azure config))) ∧
  raw_str obj ["azure"; "temporary_storage"] "container"
    = Some (AzureTempStorageConfig.container
              (AzureMLConfig.temporary_storage (KedroAzureMLConfig.azure config))) ∧
  raw_str obj ["docker"] "image"
    = Some (DockerConfig.image (KedroAzureMLConfig.docker config)).
Proof.
  intros (az & ts & dk & Haz & Hts & Hdk & Hazf & Htsf & Hdkf)%parse_obj_inv.
  apply AzureMLConfig_fields_str in Hazf as (H1 & H2 & H3 & H4).
  unfold AzureTempStorageConfig.fields in Htsf.
  apply ap_inr in Htsf as (g & c & Htsf & H6%required_str_inr & Heq).
  apply ap_inr in Htsf as (g' & a & [= <-] & H5%required_str_inr & ->).
  unfold DockerConfig.fields in Hdkf.
  apply ap_inr in Hdkf as (g'' & i & [= <-] & H7%required_str_inr & Heq').
  unfold raw_str. rewrite Haz, Hts, Hdk. simpl.
  rewrite Heq, Heq'. simpl. by rewrite H1, H2, H3, H4, H5, H6, H7.
Qed.

Lemma C7_witness :
  raw_str CONFIG_TEMPLATE ["azure"; "temporary_storage"] "account_name"
    = Some "{storage_account_name}".
Proof.
  eassert (Hp : KedroAzureMLConfig.parse_obj CONFIG_TEMPLATE = Ok _)
    by (vm_compute; reflexivity).
  destruct (C7_accepted_fields_present CONFIG_TEMPLATE _ Hp)
    as (_ & _ & _ & _ & H & _).
  exact H.
Defined.

End parse_properties.

(** ** Guards of the dataset constructors *)

Section constructors.

Abbreviation pyfunc_message :=
  "PyFunc models require specifying `pyfunc_workflow` (set to either `python_model` or `loader_module`)".

Lemma pyfunc_guard flavor (pyfunc_workflow : option string) :
  flavor = "mlflow.pyfunc" →
  pyfunc_workflow ∉ MlflowAbstractModelDataSet.pyfunc_workflows →
  bool_decide (flavor = "mlflow.pyfunc")
  && negb (bool_decide (pyfunc_workflow ∈ MlflowAbstractModelDataSet.pyfunc_workflows))
  = true.
Proof.
  intros -> Hw. by rewrite bool_decide_eq_true_2, bool_decide_eq_false_2.
Qed.

(** With the flavor ["mlflow.pyfunc"] and a workflow outside the two
    allowed ones, the constructor returns no object; it raises the
    [DataSetError] of the guard once the constructor of the base class has
    returned. *)
Lemma MlflowAbstractModelDataSet_init_guard `{Environment}
    filepath flavor pyfunc_workflow load_args save_args version :
  flavor = "mlflow.pyfunc" →
  pyfunc_workflow ∉ MlflowAbstractModelDataSet.pyfunc_workflows →
  (∃ e, MlflowAbstractModelDataSet.__init__
          filepath flavor pyfunc_workflow load_args save_args version = Raise e) ∧
  (∀ b, AbstractVersionedDataSet_init filepath version = Ok b →
        MlflowAbstractModelDataSet.__init__
          filepath flavor pyfunc_workflow load_args save_args version
        = Raise (DataSetError pyfunc_message)).
Proof.
  intros Hf Hw. unfold MlflowAbstractModelDataSet.__init__.
  destruct (AbstractVersionedDataSet_init filepath version) as [b|e]; simpl.
  - rewrite (pyfunc_guard flavor pyfunc_workflow Hf Hw). eauto.
  - split; [eauto|]. by intros b.
Qed.

(** C8, as stated, fails on the type of the error: the guard raises a
    [DataSetError], not a [ValidationError]. *)
Lemma C8_counterexample :
  @MlflowAbstractModelDataSet.__init__ (example_environment ["mlflow.pyfunc"])
    "model" "mlflow.pyfunc" None None None None
  = Raise (DataSetError pyfunc_message) ∧
  ¬ ∃ errors,
      @MlflowAbstractModelDataSet.__init__ (example_environment ["mlflow.pyfunc"])
        "model" "mlflow.pyfunc" None None None None
      = Raise (ValidationError errors).
Proof.
  split; [reflexivity|]. intros [errors Herr]. vm_compute in Herr. discriminate Herr.
Qed.

(** C8, amended. Constructing a model dataset with the flavor
    ["mlflow.pyfunc"] and a [pyfunc_workflow] that is neither
    ["python_model"] nor ["loader_module"] (unset included) returns no
    object and raises a [DataSetError]: the one of the guard, once the
    constructor of kedro's base class has returned.  This holds for
    [MlflowAbstractModelDataSet] and for [MlflowModelLoggerDataSet]. *)
Theorem C8_pyfunc_workflow_required `{Environment}
    filepath flavor pyfunc_workflow load_args save_args version
    run_id artifact_path :
  flavor = "mlflow.pyfunc" →
  pyfunc_workflow ∉ MlflowAbstractModelDataSet.pyfunc_workflows →
  ((∃ e, MlflowAbstractModelDataSet.__init__
           filepath flavor pyfunc_workflow load_args save_args version = Raise e) ∧
   (∀ b, AbstractVersionedDataSet_init filepath version = Ok b →
         MlflowAbstractModelDataSet.__init__
           filepath flavor pyfunc_workflow load_args save_args version
         = Raise (DataSetError pyfunc_message))) ∧
  ((∃ e, MlflowModelLoggerDataSet.__init__
           flavor run_id artifact_path pyfunc_workflow load_args save_args
         = Raise e) ∧
   (∀ b, AbstractVersionedDataSet_init "" None = Ok b →
         MlflowModelLoggerDataSet.__init__
           flavor run_id artifact_path pyfunc_workflow load_args save_args
         = Raise (DataSetError pyfunc_message))).
Proof.
  intros Hf Hw. split.
  - by apply MlflowAbstractModelDataSet_init_guard.
  - destruct (MlflowAbstractModelDataSet_init_guard
                "" flavor pyfunc_workflow load_args save_args None Hf Hw)
      as [[e He] Hb].
    unfold MlflowModelLoggerDataSet.__init__. split.
    + exists e. by rewrite He.
    + intros b Hinit. by rewrite (Hb b Hinit).
Qed.

Lemma C8_witness :
  @MlflowModelLoggerDataSet.__init__ (example_environment ["mlflow.pyfunc"])
    "mlflow.pyfunc" None (Some "model") (Some "custom") None None
  = Raise (DataSetError pyfunc_message).
Proof.
  refine (proj2 (proj2 (@C8_pyfunc_workflow_required
            (example_environment ["mlflow.pyfunc"])
            "" "mlflow.pyfunc" (Some "custom") None None None None (Some "model")
            eq_refl _)) ("", None) eq_refl).
  vm_compute. intros Hin.
  repeat (apply elem_of_cons in Hin as [Hin|Hin]; [discriminate Hin|]).
  by apply elem_of_nil in Hin.
Defined.

(** C10. Once the constructor of [AzureMLPipelineDataSet] has set the
    configuration of the underlying dataset: if it holds the key
    [VERSION_KEY], the constructor raises a [DataSetError] whose message
    names the flag [VERSIONED_FLAG_KEY] to remove, and returns no object; if
    it does not hold the key, the constructor returns the object. *)
Theorem C10_versioned_dataset_refused `{Environment}
    class_name azureml_dataset dataset filepath_arg super :
  AzureMLPipelineDataSet_init dataset filepath_arg = Ok super →
  (VERSION_KEY ∈ dom (_dataset_config super) →
   AzureMLFolderDataSet.__init__ class_name azureml_dataset dataset filepath_arg
   = Raise (DataSetError
       ("'" +:+ class_name +:+
        "' does not support versioning of the underlying dataset. Please remove '"
        +:+ VERSIONED_FLAG_KEY +:+ "' flag from the dataset definition."))) ∧
  (VERSION_KEY ∉ dom (_dataset_config super) →
   AzureMLFolderDataSet.__init__ class_name azureml_dataset dataset filepath_arg
   = Ok (AzureMLFolderDataSet.Build super azureml_dataset)).
Proof.
  intros Hsuper. unfold AzureMLFolderDataSet.__init__. rewrite Hsuper. simpl.
  split; intros Hkey.
  - by rewrite bool_decide_eq_true_2.
  - by rewrite bool_decide_eq_false_2.
Qed.

Lemma C10_witness :
  @AzureMLFolderDataSet.__init__ (example_environment [])
    "AzureMLFolderDataSet" "folder"
    {[ "type" := PStr "pandas.CSVDataSet"; "version" := PNone ]} "filepath"
  = Raise (DataSetError
      "'AzureMLFolderDataSet' does not support versioning of the underlying dataset. Please remove 'versioned' flag from the dataset definition.") ∧
  ∃ o, @AzureMLFolderDataSet.__init__ (example_environment [])
         "AzureMLFolderDataSet" "folder"
         {[ "type" := PStr "pandas.CSVDataSet" ]} "filepath" = Ok o.
Proof.
  split.
  - refine (proj1 (@C10_versioned_dataset_refused (example_environment [])
              "AzureMLFolderDataSet" "folder"
              {[ "type" := PStr "pandas.CSVDataSet"; "version" := PNone ]}
              "filepath" _ eq_refl) _).
    apply elem_of_dom. eexists. reflexivity.
  - eexists.
    refine (proj2 (@C10_versioned_dataset_refused (example_environment [])
              "AzureMLFolderDataSet" "folder"
              {[ "type" := PStr "pandas.CSVDataSet" ]}
              "filepath" _ eq_refl) _).
    apply not_elem_of_dom. reflexivity.
Defined.

End constructors.

(** ** From the document to the lookup *)

Section roles.

Import DefaultConfigDict pydantic.

Implicit Types (t : DefaultConfigDict.t) (obj az d : gmap string pyval).

Lemma ResourceConfig_validate_ok loc v r :
  pydantic.to_ok (ResourceConfig.validate loc v) = Some r →
  ∃ d c, dict_validator v = Some d ∧
         (x ← d !! "cluster_name"; str_validator x) = Some c ∧
         r = ResourceConfig.Build (PStr c).
Proof.
  destruct (ResourceConfig.validate loc v) as [|r'] eqn:Hv; [done|].
  intros [= <-]. by eapply ResourceConfig_validate_inr.
Qed.

Lemma roles_of_document obj az config :
  KedroAzureMLConfig.parse_obj obj = Ok config →
  section_at obj ["azure"] = Some az →
  dom (data (AzureMLConfig.resources (KedroAzureMLConfig.azure config)))
    = dom (raw_resources az) ∧
  ∀ k v, raw_resources az !! k = Some v →
    ∃ d c, dict_validator v = Some d ∧
      (x ← d !! "cluster_name"; str_validator x) = Some c ∧
      data (AzureMLConfig.resources (KedroAzureMLConfig.azure config)) !! k
        = Some (ResourceConfig.Build (PStr c)) ∧
      ∃ t', resolve (AzureMLConfig.resources (KedroAzureMLConfig.azure config)) k
            = Ok (ResourceConfig.Build (PStr c), t').
Proof.
  intros Hp Haz.
  destruct (parse_obj_resources obj config Hp) as (az' & Haz' & Hf & Hdata).
  assert (az' = az) as -> by congruence.
  destruct (parse_obj_table_inv obj config Hp) as [D Hinv].
  set (t := AzureMLConfig.resources (KedroAzureMLConfig.azure config)) in *.
  split.
  - apply set_eq. intros k. rewrite !elem_of_dom. split.
    + intros [r Hr]. rewrite (proj1 (Hdata k)) in Hr.
      destruct (raw_resources az !! k); [by eexists|done].
    + apply (proj2 (Hdata k)).
  - intros k v Hk.
    destruct (proj2 (Hdata k)) as [r Hr]; [by eexists|].
    pose proof Hr as Hr'. rewrite (proj1 (Hdata k)), Hk in Hr'. simpl in Hr'.
    apply ResourceConfig_validate_ok in Hr' as (d & c & Hd & Hc & ->).
    exists d, c. split_and!; [done|done|done|].
    destruct (table_inv_resolve D t k Hinv) as (t' & Ht' & _ & _).
    rewrite Hr in Ht'. simpl in Ht'. eauto.
Qed.

(** X1. The table of an accepted document stores exactly the roles written
    under [resources], and each role, ["__default__"] included, resolves to
    the record holding the cluster name written for it. *)
Theorem X1_roles_resolve_to_document obj az config :
  KedroAzureMLConfig.parse_obj obj = Ok config →
  section_at obj ["azure"] = Some az →
  dom (data (AzureMLConfig.resources (KedroAzureMLConfig.azure config)))
    = dom (raw_resources az) ∧
  ∀ k v, raw_resources az !! k = Some v →
    ∃ d c, dict_validator v = Some d ∧
      (x ← d !! "cluster_name"; str_validator x) = Some c ∧
      data (AzureMLConfig.resources (KedroAzureMLConfig.azure config)) !! k
        = Some (ResourceConfig.Build (PStr c)) ∧
      ∃ t', resolve (AzureMLConfig.resources (KedroAzureMLConfig.azure config)) k
            = Ok (ResourceConfig.Build (PStr c), t').
Proof. apply roles_of_document. Qed.

Lemma X1_witness :
  ∃ t', resolve (table_of CONFIG_TEMPLATE) "chunky"
        = Ok (ResourceConfig.Build (PStr "chunky-cpu-cluster"), t').
Proof.
  eassert (Hp : KedroAzureMLConfig.parse_obj CONFIG_TEMPLATE = Ok _)
    by (vm_compute; reflexivity).
  eassert (Haz : section_at CONFIG_TEMPLATE ["azure"] = Some _) by reflexivity.
  destruct (X1_roles_resolve_to_document CONFIG_TEMPLATE _ _ Hp Haz) as [_ Hroles].
  destruct (Hroles "chunky" (PDict {[ "cluster_name" := PStr "chunky-cpu-cluster" ]}))
    as (d & c & Hd & Hc & _ & Hres); [vm_compute; reflexivity|].
  injection Hd as <-. vm_compute in Hc. injection Hc as <-. exact Hres.
Defined.

(** X2. When the document writes a ["__default__"] role, its record is the
    default of the table: every key that the document does not write
    resolves to the cluster name written for ["__default__"]. *)
Theorem X2_written_default_is_used obj az config v :
  KedroAzureMLConfig.parse_obj obj = Ok config →
  section_at obj ["azure"] = Some az →
  raw_resources az !! "__default__" = Some v →
  ∃ d c, dict_validator v = Some d ∧
    (x ← d !! "cluster_name"; str_validator x) = Some c ∧
    default_factory (AzureMLConfig.resources (KedroAzureMLConfig.azure config))
      = Some (ResourceConfig.Build (PStr c)) ∧
    ∀ k, raw_resources az !! k = None →
      ∃ t', resolve (AzureMLConfig.resources (KedroAzureMLConfig.azure config)) k
            = Ok (ResourceConfig.Build (PStr c), t').
Proof.
  intros Hp Haz Hv.
  destruct (roles_of_document obj az config Hp Haz) as [_ Hroles].
  destruct (Hroles "__default__" v Hv) as (d & c & Hd & Hc & Hstored & _).
  destruct (parse_obj_resources obj config Hp) as (az' & Haz' & Hf & Hdata).
  assert (az' = az) as -> by congruence.
  destruct (parse_obj_table_inv obj config Hp) as [D Hinv].
  set (t := AzureMLConfig.resources (KedroAzureMLConfig.azure config)) in *.
  rewrite Hstored in Hf. simpl in Hf.
  assert (D = ResourceConfig.Build (PStr c)) as ->.
  { destruct Hinv as (Hf' & _). congruence. }
  exists d, c. split_and!; [done|done|done|].
  intros k Hk. destruct (table_inv_resolve _ t k Hinv) as (t' & -> & _ & _).
  rewrite (proj1 (Hdata k)), Hk. by eexists.
Qed.

Lemma X2_witness :
  ∃ t', resolve (table_of doc_A_B) "anything-else"
        = Ok (ResourceConfig.Build (PStr "A"), t').
Proof.
  eassert (Hp : KedroAzureMLConfig.parse_obj doc_A_B = Ok _)
    by (vm_compute; reflexivity).
  eassert (Haz : section_at doc_A_B ["azure"] = Some _) by reflexivity.
  destruct (X2_written_default_is_used doc_A_B _ _
              (PDict {[ "cluster_name" := PStr "A" ]}) Hp Haz)
    as (d & c & Hd & Hc & _ & Hres); [vm_compute; reflexivity|].
  injection Hd as <-. vm_compute in Hc. injection Hc as <-.
  apply Hres. vm_compute. reflexivity.
Defined.

End roles.

(** ** How lookups compose *)

Section composition.

Import DefaultConfigDict.

Implicit Types (t : DefaultConfigDict.t) (D : ResourceConfig.t) (k key : string).

(** The record that the table [t] with default [D] gives for [key]. *)
Lemma table_inv_resolve_data D t key :
  table_inv D t →
  resolve t key =
    Ok (default D (data t !! key),
        Build (Some D)
          (<[key := default D (data t !! key)]> (<["__default__" := D]> (data t)))).
Proof.
  intros Hinv. pose proof Hinv as (Hf & HD & Hd & Hall).
  rewrite (resolve_spec t D key Hf Hd). do 2 f_equal.
  apply merge_populated_r.
  destruct (data t !! key) as [E|] eqn:Hk; simpl; [by apply (Hall key)|done].
Qed.




(** X4. A lookup in a table built by parsing adds to the stored keys exactly
    the key looked up and ["__default__"], and a second lookup of the same
    key changes nothing: it returns the record again and the table as it
    was. *)
Theorem X4_lookup_settles t key r t' :
  built_by_parse t →
  resolve t key = Ok (r, t') →
  dom (data t') = dom (data t) ∪ {[ key; "__default__" ]} ∧
  resolve t' key = Ok (r, t').
Proof.
  intros [D Hinv]%built_by_parse_inv Hr.
  rewrite (table_inv_resolve_data D t key Hinv) in Hr. injection Hr as <- <-.
  assert (Hinv' : table_inv D (Build (Some D)
    (<[key := default D (data t !! key)]> (<["__default__" := D]> (data t))))).
  { eapply table_inv_step; [exact Hinv|]. eexists _, _.
    apply (table_inv_resolve_data D t key Hinv). }
  split.
  - simpl. rewrite !dom_insert_L.
    apply set_eq. intros x.
    rewrite !elem_of_union, !elem_of_singleton. tauto.
  - rewrite (table_inv_resolve_data D _ key Hinv'). simpl.
    rewrite lookup_insert_eq. simpl. do 3 f_equal.
    apply map_eq. intros k.
    destruct (decide (k = key)) as [Hk|Hk];
      destruct (decide (k = "__default__")) as [Hkd|Hkd]; subst;
      repeat first [rewrite lookup_insert_eq | rewrite lookup_insert_ne by congruence];
      done.
Qed.

Lemma X4_witness :
  ∃ r t', resolve (table_of doc_plain) "foo" = Ok (r, t') ∧
          dom (data t') = dom (data (table_of doc_plain)) ∪ {[ "foo"; "__default__" ]} ∧
          resolve t' "foo" = Ok (r, t').
Proof.
  eassert (Hr : resolve (table_of doc_plain) "foo" = Ok _)
    by (vm_compute; reflexivity).
  eassert (Hp : KedroAzureMLConfig.parse_obj doc_plain = Ok _)
    by (vm_compute; reflexivity).
  destruct (X4_lookup_settles (table_of doc_plain) "foo" _ _
              (built_table_of doc_plain (ex_intro _ _ Hp)) Hr) as [Hdom Hagain].
  eexists _, _. split_and!; [exact Hr|exact Hdom|exact Hagain].
Defined.

(** X5. A [DefaultConfigDict] without a factory: when it stores no
    ["__default__"], every lookup raises [KeyError] for ["__default__"],
    also for a key that it stores; when it stores ["__default__"], a missing
    key raises [KeyError] for that key, and a stored key resolves to the
    merge over the stored default, the table being left as it was. *)
Theorem X5_no_factory t key :
  default_factory t = None →
  (data t !! "__default__" = None →
   resolve t key = Raise (KeyError "__default__")) ∧
  (∀ D, data t !! "__default__" = Some D → data t !! key = None →
        resolve t key = Raise (KeyError key)) ∧
  (∀ D E, data t !! "__default__" = Some D → data t !! key = Some E →
          resolve t key = Ok (merge D E, t)).
Proof.
  intros Hf. unfold __getitem__, super_getitem. split_and!.
  - intros ->. by rewrite Hf.
  - intros D -> Hk. simpl. by rewrite Hk, Hf.
  - intros D E -> Hk. simpl. by rewrite Hk.
Qed.

Lemma X5_witness :
  resolve (Build None {[ "foo" := ResourceConfig.Build (PStr "B") ]}) "foo"
  = Raise (KeyError "__default__").
Proof.
  apply (proj1 (X5_no_factory
    (Build None {[ "foo" := ResourceConfig.Build (PStr "B") ]}) "foo" eq_refl)).
  reflexivity.
Defined.

End composition.

(** ** Which documents are accepted *)

Section acceptance.

Import pydantic.

Implicit Types (obj az d : gmap string pyval) (e : Loc * error_kind).

Lemma validate_mapping_error {A} (validate : Loc → pyval → ErrorList + A)
    loc v d k item e :
  dict_validator v = Some d →
  d !! k = Some item →
  e ∈ errors_of (validate (loc ++ [k]) item) →
  e ∈ errors_of (validate_mapping validate loc v).
Proof.
  intros Hd Hk He. unfold validate_mapping. rewrite Hd.
  case_decide as Hall.
  - exfalso.
    destruct (Hall k (validate (loc ++ [k]) item)) as [a Ha].
    { by rewrite map_lookup_imap, Hk. }
    destruct (validate (loc ++ [k]) item); simpl in *; [done|].
    by apply elem_of_nil in He.
  - simpl. apply list_elem_of_bind.
    exists (k, validate (loc ++ [k]) item). split; [done|].
    apply elem_of_map_to_list. by rewrite map_lookup_imap, Hk.
Qed.

Lemma validate_mapping_ok {A} (validate : Loc → pyval → ErrorList + A) loc v d :
  dict_validator v = Some d →
  (∀ k item, d !! k = Some item → is_Some (to_ok (validate (loc ++ [k]) item))) →
  ∃ m, validate_mapping validate loc v = inr m.
Proof.
  intros Hd Hall. unfold validate_mapping. rewrite Hd.
  rewrite decide_True; [eauto|].
  intros k r. rewrite map_lookup_imap.
  destruct (d !! k) as [item|] eqn:Hk; simpl; [|done].
  intros [= <-]. by eapply Hall.
Qed.

Lemma validate_model_fault {A} (fields : Loc → gmap string pyval → ErrorList + A)
    loc v kind :
  model_fault (Some v) = Some kind →
  (loc, kind) ∈ errors_of (validate_model fields loc v).
Proof.
  unfold model_fault, validate_model.
  destruct v; try destruct (dict_validator _); simpl; intros [= <-];
    apply list_elem_of_here.
Qed.

Lemma validate_model_descend {A} (fields : Loc → gmap string pyval → ErrorList + A)
    loc v d e :
  dict_validator v = Some d →
  e ∈ errors_of (fields loc d) →
  e ∈ errors_of (validate_model fields loc v).
Proof. unfold validate_model. intros Hd. destruct v; try done; by rewrite Hd. Qed.

Lemma ResourceConfig_validate_role loc item :
  role_valid item → is_Some (to_ok (ResourceConfig.validate loc item)).
Proof.
  intros (d & Hd & [c Hc]).
  unfold ResourceConfig.validate, validate_model.
  assert (ResourceConfig.fields loc d = inr (ResourceConfig.Build (PStr c))) as Hf.
  { unfold ResourceConfig.fields. by rewrite (required_str_ok loc d _ c Hc). }
  destruct item; try done; rewrite Hd, Hf; by eexists.
Qed.

Lemma validate_resources_valid loc az :
  (∃ t, AzureMLConfig.validate_resources loc az = inr t) ↔ resources_valid az.
Proof.
  unfold AzureMLConfig.validate_resources, resources_valid.
  destruct (az !! "resources") as [v|]; [|by split; eauto].
  assert (Hv : (∃ t, match validate_mapping ResourceConfig.validate
                              (loc ++ ["resources"]) v with
                     | inr value => inr (AzureMLConfig._validate_resources (Some value))
                     | inl e => inl e
                     end = @inr ErrorList _ t) ↔
               ∃ d, dict_validator v = Some d ∧ map_Forall (λ _ item, role_valid item) d).
  { split.
    - intros [t Ht].
      destruct (validate_mapping _ _ v) as [|m] eqn:Hm; [done|].
      apply validate_mapping_inr in Hm as (d & Hd & Hitems).
      exists d. split; [done|]. intros k item Hk.
      destruct (proj2 (Hitems k)) as [r Hr]; [by eexists|].
      rewrite (proj1 (Hitems k)), Hk in Hr. simpl in Hr.
      apply ResourceConfig_validate_ok in Hr as (dd & c & Hdd & Hc & _).
      exists dd. split; [done|by eexists].
    - intros (d & Hd & Hall).
      destruct (validate_mapping_ok ResourceConfig.validate (loc ++ ["resources"]) v d Hd)
        as [m ->]; [|eauto].
      intros k item Hk. by eapply ResourceConfig_validate_role, Hall. }
  destruct v; try exact Hv. by split; eauto.
Qed.

Lemma parse_obj_strs obj config sec name :
  KedroAzureMLConfig.parse_obj obj = Ok config →
  (sec, name) ∈ str_fields →
  is_Some (raw_str obj sec name).
Proof.
  intros (az & ts & dk & Haz & Hts & Hdk & Hazf & Htsf & Hdkf)%parse_obj_inv Hin.
  apply AzureMLConfig_fields_str in Hazf as (H1 & H2 & H3 & H4).
  unfold AzureTempStorageConfig.fields in Htsf.
  apply ap_inr in Htsf as (g & c & Htsf & H6%required_str_inr & Heq).
  apply ap_inr in Htsf as (g' & a & [= <-] & H5%required_str_inr & ->).
  unfold DockerConfig.fields in Hdkf.
  apply ap_inr in Hdkf as (g'' & i & [= <-] & H7%required_str_inr & Heq').
  unfold str_fields in Hin.
  repeat (apply elem_of_cons in Hin as [[= -> ->]|Hin]);
    [..|by apply elem_of_nil in Hin];
    unfold raw_str; rewrite ?Haz, ?Hts, ?Hdk; simpl;
    rewrite ?H1, ?H2, ?H3, ?H4, ?H5, ?H6, ?H7; by eexists.
Qed.

(** X8. The documents that [parse_obj] accepts are exactly those whose
    [azure] section is a mapping, whose required [str] fields all validate
    as text, and whose [resources] are absent, null, or a mapping of roles
    that each give a [cluster_name] validating as text. *)
Theorem X8_accepted_documents obj :
  (∃ config, KedroAzureMLConfig.parse_obj obj = Ok config) ↔
  ∃ az, section_at obj ["azure"] = Some az ∧
        (∀ sec name, (sec, name) ∈ str_fields → is_Some (raw_str obj sec name)) ∧
        resources_valid az.
Proof.
  split.
  - intros [config Hp].
    pose proof Hp as (az & _ & _ & Haz & _ & _ & Hazf & _)%parse_obj_inv.
    exists az. split_and!; [done| |].
    + intros sec name Hin. by eapply parse_obj_strs.
    + apply (validate_resources_valid ["azure"]).
      apply AzureMLConfig_fields_resources in Hazf. eauto.
  - intros (az & Haz & Hstr & [res Hres]%(validate_resources_valid ["azure"])).
    destruct (parse_obj_ok obj az res Haz Hstr Hres) as (config & Hp & _). eauto.
Qed.

(** X6. What stands under [resources] is validated as well: a value that is
    not a mapping is refused at [azure, resources]; a role that is null or
    not a mapping is refused at [azure, resources, role]; a role without a
    [cluster_name] that validates as text is refused at [azure, resources,
    role, cluster_name]. *)
Theorem X6_resource_faults_reported obj az v :
  section_at obj ["azure"] = Some az →
  az !! "resources" = Some v →
  (model_fault (Some v) = Some DictError →
   ∃ errs, KedroAzureMLConfig.parse_obj obj = Raise (ValidationError errs) ∧
           (["azure"; "resources"], DictError) ∈ errs) ∧
  (∀ d role item, dict_validator v = Some d → d !! role = Some item →
     (∀ kind, model_fault (Some item) = Some kind →
        ∃ errs, KedroAzureMLConfig.parse_obj obj = Raise (ValidationError errs) ∧
                (["azure"; "resources"; role], kind) ∈ errs) ∧
     (∀ dd kind, dict_validator item = Some dd →
        str_fault (dd !! "cluster_name") = Some kind →
        ∃ errs, KedroAzureMLConfig.parse_obj obj = Raise (ValidationError errs) ∧
                (["azure"; "resources"; role; "cluster_name"], kind) ∈ errs)).
Proof.
  intros Haz Hres. apply section_at_one in Haz.
  assert (Hup : ∀ e, e ∈ errors_of (AzureMLConfig.validate_resources ["azure"] az) →
    ∃ errs, KedroAzureMLConfig.parse_obj obj = Raise (ValidationError errs) ∧ e ∈ errs).
  { intros e He. apply parse_obj_raises, KedroAzureMLConfig_errors. left.
    apply (required_model_descend _ [] obj "azure" az _ Haz).
    apply AzureMLConfig_errors. auto 10. }
  assert (Hmap : ∀ e, v ≠ PNone →
    e ∈ errors_of (validate_mapping ResourceConfig.validate ["azure"; "resources"] v) →
    e ∈ errors_of (AzureMLConfig.validate_resources ["azure"] az)).
  { intros e Hv He. unfold AzureMLConfig.validate_resources. rewrite Hres. simpl.
    destruct (validate_mapping _ _ v) eqn:Hm; [|by apply elem_of_nil in He].
    by destruct v. }
  split.
  - intros Hfault. apply Hup, Hmap.
    + by intros ->.
    + unfold validate_mapping, model_fault in *.
      destruct v; try done; destruct (dict_validator _); try done;
        apply list_elem_of_here.
  - intros d role item Hd Hrole.
    assert (Hv : v ≠ PNone) by (by intros ->).
    split.
    + intros kind Hfault. apply Hup, Hmap; [done|].
      eapply validate_mapping_error; [done..|].
      by apply validate_model_fault.
    + intros dd kind Hdd Hfault. apply Hup, Hmap; [done|].
      eapply validate_mapping_error; [done..|].
      apply (validate_model_descend _ _ item dd _ Hdd).
      unfold ResourceConfig.fields. rewrite errors_of_ap, elem_of_app. right.
      by apply (required_str_fault (["azure"; "resources"] ++ [role])).
Qed.

End acceptance.

Section acceptance_examples.

Import pydantic.

Implicit Types (obj az d : gmap string pyval).

Lemma X6_witness :
  ∃ errs,
    KedroAzureMLConfig.parse_obj
      (document (azure_section (PStr "cpu-cluster")
         {[ "resources" := PDict {[ "gpu" := PDict ∅ ]} ]}))
    = Raise (ValidationError errs) ∧
    (["azure"; "resources"; "gpu"; "cluster_name"], MissingError) ∈ errs.
Proof.
  eassert (Haz : section_at
             (document (azure_section (PStr "cpu-cluster")
                {[ "resources" := PDict {[ "gpu" := PDict ∅ ]} ]}))
             ["azure"] = Some _) by reflexivity.
  destruct (X6_resource_faults_reported _ _ (PDict {[ "gpu" := PDict ∅ ]}) Haz)
    as [_ Hroles]; [vm_compute; reflexivity|].
  destruct (Hroles {[ "gpu" := PDict ∅ ]} "gpu" (PDict ∅)) as [_ Hname];
    [reflexivity|vm_compute; reflexivity|].
  apply (Hname ∅ MissingError); reflexivity.
Defined.

Lemma AzureMLConfig_fields_insert loc az k v :
  k ∉ AzureMLConfig_field_names →
  AzureMLConfig.fields loc (<[k := v]> az) = AzureMLConfig.fields loc az.
Proof.
  unfold AzureMLConfig_field_names. rewrite !not_elem_of_cons.
  intros (? & ? & ? & ? & ? & ? & _).
  unfold AzureMLConfig.fields, AzureMLConfig.validate_resources, required.
  by rewrite !lookup_insert_ne by done.
Qed.

(** X7. Keys that the schema does not name are ignored: adding one at the
    top of the document or inside the [azure] section changes neither
    whether the document is accepted, nor the configuration, nor the errors.
    So a role table written under a misspelt key is not seen at all. *)
Theorem X7_unknown_keys_ignored obj k v :
  (k ∉ KedroAzureMLConfig_field_names →
   KedroAzureMLConfig.parse_obj (<[k := v]> obj)
   = KedroAzureMLConfig.parse_obj obj) ∧
  (∀ az, obj !! "azure" = Some (PDict az) →
         k ∉ AzureMLConfig_field_names →
         KedroAzureMLConfig.parse_obj (<["azure" := PDict (<[k := v]> az)]> obj)
         = KedroAzureMLConfig.parse_obj obj).
Proof.
  split.
  - unfold KedroAzureMLConfig_field_names. rewrite !not_elem_of_cons.
    intros (? & ? & _).
    unfold KedroAzureMLConfig.parse_obj, KedroAzureMLConfig.fields, required.
    by rewrite !lookup_insert_ne by done.
  - intros az Haz Hk.
    unfold KedroAzureMLConfig.parse_obj, KedroAzureMLConfig.fields, required.
    rewrite lookup_insert_eq, lookup_insert_ne, Haz by done.
    unfold AzureMLConfig.validate, validate_model. simpl.
    by rewrite (AzureMLConfig_fields_insert _ az k v Hk).
Qed.

Lemma X7_witness :
  KedroAzureMLConfig.parse_obj
    (document (azure_section (PStr "A") {[ "resource" := PDict resources_A_B ]}))
  = KedroAzureMLConfig.parse_obj (document (azure_section (PStr "A") ∅)).
Proof.
  etransitivity;
    [|apply (proj2 (X7_unknown_keys_ignored
                (document (azure_section (PStr "A") ∅))
                "resource" (PDict resources_A_B))
              (azure_section (PStr "A") ∅) eq_refl)].
  - vm_compute. reflexivity.
  - unfold AzureMLConfig_field_names. rewrite !not_elem_of_cons.
    split_and!; try discriminate. apply not_elem_of_nil.
Defined.

(** X9. [KedroAzureRunnerConfig.parse_obj] returns a configuration exactly
    for the documents that give a [temporary_storage] mapping with
    [account_name] and [container], a [run_id] and a [storage_account_key],
    all validating as text; the configuration holds these texts. *)
Theorem X9_runner_config obj config :
  KedroAzureRunnerConfig.parse_obj obj = Ok config ↔
  ∃ ts,
    (v ← obj !! "temporary_storage"; dict_validator v) = Some ts ∧
    (v ← ts !! "account_name"; str_validator v)
      = Some (AzureTempStorageConfig.account_name
                (KedroAzureRunnerConfig.temporary_storage config)) ∧
    (v ← ts !! "container"; str_validator v)
      = Some (AzureTempStorageConfig.container
                (KedroAzureRunnerConfig.temporary_storage config)) ∧
    (v ← obj !! "run_id"; str_validator v)
      = Some (KedroAzureRunnerConfig.run_id config) ∧
    (v ← obj !! "storage_account_key"; str_validator v)
      = Some (KedroAzureRunnerConfig.storage_account_key config).
Proof.
  unfold KedroAzureRunnerConfig.parse_obj, KedroAzureRunnerConfig.fields.
  split.
  - destruct (_ <*> _) as [|c] eqn:Hc; [done|]. intros [= <-].
    apply ap_inr in Hc as (g1 & key & Hc & Hkey%required_str_inr & ->).
    apply ap_inr in Hc as (g2 & rid & Hc & Hrid%required_str_inr & ->).
    apply ap_inr in Hc as (g3 & tsc & [= <-] & Hts & ->).
    apply required_model_inr in Hts as (ts & Hts & Htsf). simpl in *.
    unfold AzureTempStorageConfig.fields in Htsf.
    apply ap_inr in Htsf as (g4 & c & Htsf & Hco%required_str_inr & ->).
    apply ap_inr in Htsf as (g5 & a & [= <-] & Hac%required_str_inr & ->).
    exists ts. by split_and!.
  - intros (ts & Hts & Hac & Hco & Hrid & Hkey).
    unfold AzureTempStorageConfig.validate.
    rewrite (required_model_ok _ [] obj "temporary_storage" ts Hts).
    unfold AzureTempStorageConfig.fields.
    rewrite (required_str_ok _ ts _ _ Hac), (required_str_ok _ ts _ _ Hco).
    rewrite (required_str_ok _ obj _ _ Hrid), (required_str_ok _ obj _ _ Hkey).
    simpl. by destruct config as [[] ? ?].
Qed.

End acceptance_examples.

(** ** The constructors of the model datasets *)

Section model_constructors.

Context `{Environment}.

Abbreviation not_found_message flavor :=
  ("'" +:+ flavor +:+
   "' module not found. Check valid flavor in mlflow documentation: https://www.mlflow.org/docs/latest/python_api/index.html").

Lemma pyfunc_guard_false flavor (pyfunc_workflow : option string) :
  bool_decide (flavor = "mlflow.pyfunc")
  && negb (bool_decide (pyfunc_workflow ∈ MlflowAbstractModelDataSet.pyfunc_workflows))
  = false ↔
  (flavor = "mlflow.pyfunc" →
   pyfunc_workflow ∈ MlflowAbstractModelDataSet.pyfunc_workflows).
Proof.
  rewrite andb_false_iff, negb_false_iff, bool_decide_eq_false, bool_decide_eq_true.
  split; [intros [?|?] ?; done|].
  intros Himp. destruct (decide (flavor = "mlflow.pyfunc")); auto.
Qed.

(** The constructor past the guard: what importing the flavor gives. *)
Lemma init_past_guard filepath flavor pyfunc_workflow load_args save_args version b :
  AbstractVersionedDataSet_init filepath version = Ok b →
  (flavor = "mlflow.pyfunc" →
   pyfunc_workflow ∈ MlflowAbstractModelDataSet.pyfunc_workflows) →
  MlflowAbstractModelDataSet.__init__
    filepath flavor pyfunc_workflow load_args save_args version
  = (except_ImportError (MlflowAbstractModelDataSet._import_module flavor);;
     Ok (MlflowAbstractModelDataSet.Build b flavor pyfunc_workflow true
           (or_dict load_args) (or_dict save_args))).
Proof.
  intros Hb Hg%pyfunc_guard_false.
  unfold MlflowAbstractModelDataSet.__init__. rewrite Hb. simpl. by rewrite Hg.
Qed.

Lemma init_returns
    filepath flavor pyfunc_workflow load_args save_args version o :
  MlflowAbstractModelDataSet.__init__
    filepath flavor pyfunc_workflow load_args save_args version = Ok o ↔
  ∃ b, AbstractVersionedDataSet_init filepath version = Ok b ∧
       (flavor = "mlflow.pyfunc" →
        pyfunc_workflow ∈ MlflowAbstractModelDataSet.pyfunc_workflows) ∧
       find_spec flavor = Ok true ∧
       import_module flavor = Ok () ∧
       o = MlflowAbstractModelDataSet.Build b flavor pyfunc_workflow true
             (or_dict load_args) (or_dict save_args).
Proof.
  split.
  - intros Ho.
    destruct (AbstractVersionedDataSet_init filepath version) as [b|e] eqn:Hb;
      [|by unfold MlflowAbstractModelDataSet.__init__ in Ho; rewrite Hb in Ho].
    destruct (bool_decide (flavor = "mlflow.pyfunc")
              && negb (bool_decide
                   (pyfunc_workflow ∈ MlflowAbstractModelDataSet.pyfunc_workflows)))
      eqn:Hg.
    { unfold MlflowAbstractModelDataSet.__init__ in Ho.
      rewrite Hb in Ho. simpl in Ho. by rewrite Hg in Ho. }
    pose proof (proj1 (pyfunc_guard_false _ _) Hg) as Hg'.
    rewrite (init_past_guard _ _ _ _ _ _ b Hb Hg') in Ho.
    unfold MlflowAbstractModelDataSet._import_module in Ho.
    destruct (find_spec flavor) as [[]|[]] eqn:Hf; simpl in Ho; try done.
    destruct (import_module flavor) as [[]|[]] eqn:Hi; simpl in Ho; try done.
    injection Ho as <-. exists b. by split_and!.
  - intros (b & Hb & Hg & Hf & Hi & ->).
    rewrite (init_past_guard _ _ _ _ _ _ b Hb Hg).
    unfold MlflowAbstractModelDataSet._import_module. by rewrite Hf; simpl; rewrite Hi.
Qed.

(** X10. The constructor of [MlflowAbstractModelDataSet] returns an object
    exactly when the constructor of kedro's base class returns, the flavor
    is not ["mlflow.pyfunc"] or the workflow is one of the two, and the
    module of the flavor is found and imported; the object then holds the
    arguments, has logging activated, and has [{}] for arguments that were
    [None] or empty. *)
Theorem X10_constructor_returns
    filepath flavor pyfunc_workflow load_args save_args version o :
  MlflowAbstractModelDataSet.__init__
    filepath flavor pyfunc_workflow load_args save_args version = Ok o ↔
  ∃ b, AbstractVersionedDataSet_init filepath version = Ok b ∧
       (flavor = "mlflow.pyfunc" →
        pyfunc_workflow ∈ MlflowAbstractModelDataSet.pyfunc_workflows) ∧
       find_spec flavor = Ok true ∧
       import_module flavor = Ok () ∧
       o = MlflowAbstractModelDataSet.Build b flavor pyfunc_workflow true
             (or_dict load_args) (or_dict save_args).
Proof. apply init_returns. Qed.

(** X11. When importing the flavor fails past the guard: a module that
    [find_spec] does not find gives a [DataSetError] naming the flavor; an
    [ImportError] of [find_spec] or of [import_module] gives a
    [DataSetError] with its message; any other exception of theirs leaves
    the constructor as it is. *)
Theorem X11_import_failures
    filepath flavor pyfunc_workflow load_args save_args version b :
  AbstractVersionedDataSet_init filepath version = Ok b →
  (flavor = "mlflow.pyfunc" →
   pyfunc_workflow ∈ MlflowAbstractModelDataSet.pyfunc_workflows) →
  (find_spec flavor = Ok false →
   MlflowAbstractModelDataSet.__init__
     filepath flavor pyfunc_workflow load_args save_args version
   = Raise (DataSetError (not_found_message flavor))) ∧
  (∀ msg,
     find_spec flavor = Raise (ImportError msg) ∨
     (find_spec flavor = Ok true ∧ import_module flavor = Raise (ImportError msg)) →
     MlflowAbstractModelDataSet.__init__
       filepath flavor pyfunc_workflow load_args save_args version
     = Raise (DataSetError msg)) ∧
  (∀ e,
     (∀ msg, e ≠ ImportError msg) →
     find_spec flavor = Raise e ∨
     (find_spec flavor = Ok true ∧ import_module flavor = Raise e) →
     MlflowAbstractModelDataSet.__init__
       filepath flavor pyfunc_workflow load_args save_args version
     = Raise e).
Proof.
  intros Hb Hg. rewrite (init_past_guard _ _ _ _ _ _ b Hb Hg).
  unfold MlflowAbstractModelDataSet._import_module. split_and!.
  - by intros ->.
  - intros msg [-> | [-> ->]]; done.
  - intros e He [-> | [-> ->]]; simpl; destruct e; try done; by destruct (He msg).
Qed.

(** X12. A [MlflowModelLoggerDataSet] that was constructed has no
    ["artifact_path"] among its [save_args], whatever was given, and has the
    other [save_args] as given; it holds the run id and the artifact path,
    has logging activated, and with the flavor ["mlflow.pyfunc"] its
    workflow is one of the two. *)
Theorem X12_logger_constructed
    flavor run_id artifact_path pyfunc_workflow load_args save_args o :
  MlflowModelLoggerDataSet.__init__
    flavor run_id artifact_path pyfunc_workflow load_args save_args = Ok o →
  ModelLogger._save_args o !! "artifact_path" = None ∧
  (∀ k, k ≠ "artifact_path" →
        ModelLogger._save_args o !! k = or_dict save_args !! k) ∧
  ModelLogger._load_args o = or_dict load_args ∧
  MlflowModelLoggerDataSet._run_id o = run_id ∧
  MlflowModelLoggerDataSet._artifact_path o = artifact_path ∧
  ModelLogger._flavor o = flavor ∧
  ModelLogger._pyfunc_workflow o = pyfunc_workflow ∧
  ModelLogger._logging_activated o = true ∧
  ModelLogger.well_formed o.
Proof.
  unfold MlflowModelLoggerDataSet.__init__. intros Ho.
  destruct (MlflowAbstractModelDataSet.__init__ _ _ _ _ _ _) as [self|e] eqn:Hs;
    [|done].
  simpl in Ho. injection Ho as <-.
  apply init_returns in Hs as (b & Hb & Hg & Hf & Hi & ->).
  unfold ModelLogger._save_args, ModelLogger._load_args, ModelLogger._flavor,
    ModelLogger._pyfunc_workflow, ModelLogger._logging_activated,
    ModelLogger.well_formed. simpl.
  split_and!; try done.
  - apply lookup_delete_eq.
  - intros k Hk. by rewrite lookup_delete_ne.
Qed.

End model_constructors.

(** ** The methods of the model logger *)

Section model_methods.

Context `{Mlflow}.

Import ModelLogger.

Implicit Types (self : MlflowModelLoggerDataSet.t) (model : Any) (w : World).

Lemma truthy_str_true (s : option string) :
  truthy_str s = true ↔ ∃ run_id, s = Some run_id ∧ run_id ≠ "".
Proof.
  destruct s as [[|a s]|]; simpl; split; try done.
  - by intros (run_id & [= <-] & ?).
  - intros _. by eexists.
  - by intros (run_id & ? & ?).
Qed.

Lemma truthy_str_false (s : option string) :
  truthy_str s = false ↔ s = None ∨ s = Some "".
Proof.
  destruct s as [[|a s]|]; simpl; split; try done; auto.
  by intros [?|?].
Qed.

(** X13. [model_uri]: a run id that is given and not empty is used,
    whatever run is active; without one, [None] or the empty string alike,
    the id of the active run is used; without either, a [DataSetError] is
    raised.  The artifact path is written as it is, [None] as the text
    [None]. *)
Theorem X13_model_uri self w :
  (∀ run_id, MlflowModelLoggerDataSet._run_id self = Some run_id → run_id ≠ "" →
     model_uri self w
     = Ok ("runs:/" +:+ run_id +:+ "/" +:+
           format_opt (MlflowModelLoggerDataSet._artifact_path self))) ∧
  (∀ active,
     MlflowModelLoggerDataSet._run_id self = None ∨
     MlflowModelLoggerDataSet._run_id self = Some "" →
     active_run w = Some active →
     model_uri self w
     = Ok ("runs:/" +:+ active +:+ "/" +:+
           format_opt (MlflowModelLoggerDataSet._artifact_path self))) ∧
  (MlflowModelLoggerDataSet._run_id self = None ∨
   MlflowModelLoggerDataSet._run_id self = Some "" →
   active_run w = None →
   model_uri self w = Raise (DataSetError model_uri_message)).
Proof.
  unfold model_uri. split_and!.
  - intros run_id Hr Hne.
    rewrite (proj2 (truthy_str_true _)) by eauto. by rewrite Hr.
  - intros active Hr%truthy_str_false Ha. by rewrite Hr, Ha.
  - intros Hr%truthy_str_false Ha. by rewrite Hr, Ha.
Qed.

(** X14. [_save] with a run id while a run is active raises the
    [DataSetError] that names both ids; nothing is logged, and the object
    and the state of mlflow are left as they were. *)
Theorem X14_save_run_conflict self model w run_id active :
  MlflowModelLoggerDataSet._run_id self = Some run_id →
  run_id ≠ "" →
  active_run w = Some active →
  _save self model w
  = Some (Raise (DataSetError (run_id_message run_id active)), self, w).
Proof.
  intros Hr Hne Ha. unfold _save.
  rewrite (proj2 (truthy_str_true _)) by eauto. by rewrite Hr, Ha.
Qed.

Lemma set_save_arg_well_formed self k model :
  well_formed self → well_formed (set_save_arg self k model).
Proof. done. Qed.

Lemma well_formed_workflow self :
  well_formed self → _flavor self = "mlflow.pyfunc" →
  ∃ workflow, _pyfunc_workflow self = Some workflow.
Proof.
  intros Hwf Hf. specialize (Hwf Hf).
  apply elem_of_cons in Hwf as [->|Hwf]; [eauto|].
  apply elem_of_cons in Hwf as [->|Hwf]; [eauto|].
  by apply elem_of_nil in Hwf.
Qed.

(** What [_save_model_in_run] does to the object. *)
Lemma save_model_in_run_frame self model w :
  well_formed self →
  ∃ r self' w',
    _save_model_in_run self model w = Some (r, self', w') ∧
    (_flavor self ≠ "mlflow.pyfunc" → self' = self) ∧
    (_flavor self = "mlflow.pyfunc" →
     ∃ workflow, _pyfunc_workflow self = Some workflow ∧
                 self' = set_save_arg self workflow model).
Proof.
  intros Hwf. unfold _save_model_in_run. case_bool_decide as Hf.
  - destruct (well_formed_workflow self Hwf Hf) as [workflow Hw]. rewrite Hw.
    destruct (_logging_activated _);
      try destruct (call_log_model _ _ w) as [r w'];
      eexists _, _, _; (split; [done|]); split; try done; eauto.
  - destruct (_logging_activated self);
      try destruct (call_log_model _ _ w) as [r w'];
      eexists _, _, _; (split; [done|]); split; done.
Qed.

(** X15. On an object that the constructor built, [_save] always comes to
    an end, and whatever its outcome, it leaves the object as it was except
    for one entry of [save_args]: with the flavor ["mlflow.pyfunc"] the
    entry under the workflow may have become the model; with any other
    flavor nothing changes. *)
Theorem X15_save_frame self model w :
  well_formed self →
  ∃ r self' w',
    _save self model w = Some (r, self', w') ∧
    well_formed self' ∧
    (_flavor self ≠ "mlflow.pyfunc" → self' = self) ∧
    (_flavor self = "mlflow.pyfunc" →
     ∃ workflow, _pyfunc_workflow self = Some workflow ∧
                 (self' = self ∨ self' = set_save_arg self workflow model)).
Proof.
  intros Hwf.
  assert (Hhere : ∀ (r : result unit) w0, ∃ r' self' w',
    Some (r, self, w0) = Some (r', self', w') ∧ well_formed self' ∧
    (_flavor self ≠ "mlflow.pyfunc" → self' = self) ∧
    (_flavor self = "mlflow.pyfunc" →
     ∃ workflow, _pyfunc_workflow self = Some workflow ∧
                 (self' = self ∨ self' = set_save_arg self workflow model))).
  { intros r w0. eexists _, _, _. split_and!; [done..|].
    intros Hf. destruct (well_formed_workflow self Hwf Hf) as [workflow Hw]. eauto. }
  assert (Hbody : ∀ w0, ∃ r self' w',
    _save_model_in_run self model w0 = Some (r, self', w') ∧ well_formed self' ∧
    (_flavor self ≠ "mlflow.pyfunc" → self' = self) ∧
    (_flavor self = "mlflow.pyfunc" →
     ∃ workflow, _pyfunc_workflow self = Some workflow ∧
                 (self' = self ∨ self' = set_save_arg self workflow model))).
  { intros w0.
    destruct (save_model_in_run_frame self model w0 Hwf)
      as (r & self' & w' & Hs & Hother & Hpyfunc).
    exists r, self', w'. split_and!; [done| |done|].
    - destruct (decide (_flavor self = "mlflow.pyfunc")) as [Hf|Hf].
      + destruct (Hpyfunc Hf) as (workflow & _ & ->).
        by apply set_save_arg_well_formed.
      + by rewrite (Hother Hf).
    - intros Hf. destruct (Hpyfunc Hf) as (workflow & ? & ?). eauto. }
  unfold _save. destruct (truthy_str _); [|apply Hbody].
  destruct (active_run w) as [active|]; [apply Hhere|].
  destruct (start_run _ w) as [[[]|e] w1]; [|apply Hhere].
  destruct (Hbody w1) as (r & self' & w' & -> & Hw & Ho & Hp). simpl.
  destruct (end_run (is_ok r) w') as [[[]|e] w2];
    eexists _, _, _; by split_and!.
Qed.

(** X16. With logging deactivated [_save] never reaches the flavor's module:
    without a run id it returns without touching mlflow at all; with a run
    id and no active run, mlflow only sees the run being entered and left
    as finished. *)
Theorem X16_save_logging_off self model w :
  _logging_activated self = false →
  well_formed self →
  (MlflowModelLoggerDataSet._run_id self = None ∨
   MlflowModelLoggerDataSet._run_id self = Some "" →
   ∃ self', _save self model w = Some (Ok (), self', w)) ∧
  (∀ run_id w1,
     MlflowModelLoggerDataSet._run_id self = Some run_id → run_id ≠ "" →
     active_run w = None →
     start_run run_id w = (Ok (), w1) →
     ∃ self', _save self model w
              = Some ((end_run true w1).1, self', (end_run true w1).2)).
Proof.
  intros Hl Hwf.
  assert (Hbody : ∀ w0, ∃ self', _save_model_in_run self model w0 = Some (Ok (), self', w0)).
  { intros w0. unfold _save_model_in_run. case_bool_decide as Hf.
    - destruct (well_formed_workflow self Hwf Hf) as [workflow ->].
      assert (_logging_activated (set_save_arg self workflow model) = false) as ->
        by done.
      eauto.
    - rewrite Hl. eauto. }
  split.
  - intros Hr%truthy_str_false. unfold _save. rewrite Hr. apply Hbody.
  - intros run_id w1 Hr Hne Ha Hs. unfold _save.
    rewrite (proj2 (truthy_str_true _)) by eauto.
    rewrite Hr, Ha. simpl. rewrite Hs.
    destruct (Hbody w1) as [self' ->]. simpl.
    destruct (end_run true w1) as [[[]|e] w2]; eauto.
Qed.

(** X17. How [_save] hands the model to [log_model], with logging
    activated, no run id and the function found: for ["mlflow.pyfunc"] the
    model is stored in [save_args] under the workflow, replacing what was
    given there, and [log_model] gets the artifact path alone before the
    keywords; for any other flavor [log_model] gets the model, then the
    artifact path, and [save_args] as they are.  The outcome and the state
    of mlflow are those of [log_model]. *)
Theorem X17_save_calls_log_model self model w :
  _logging_activated self = true →
  truthy_str (MlflowModelLoggerDataSet._run_id self) = false →
  module_function self "log_model" = Ok () →
  (_flavor self ≠ "mlflow.pyfunc" →
   _save self model w
   = Some ((log_model (_flavor self)
              [inl model; inr (MlflowModelLoggerDataSet._artifact_path self)]
              (_save_args self) w).1,
           self,
           (log_model (_flavor self)
              [inl model; inr (MlflowModelLoggerDataSet._artifact_path self)]
              (_save_args self) w).2)) ∧
  (∀ workflow,
     _flavor self = "mlflow.pyfunc" →
     _pyfunc_workflow self = Some workflow →
     _save self model w
     = Some ((log_model (_flavor self)
                [inr (MlflowModelLoggerDataSet._artifact_path self)]
                (<[workflow := model]> (_save_args self)) w).1,
             set_save_arg self workflow model,
             (log_model (_flavor self)
                [inr (MlflowModelLoggerDataSet._artifact_path self)]
                (<[workflow := model]> (_save_args self)) w).2)).
Proof.
  intros Hl Hr Hm. unfold _save, _save_model_in_run. rewrite Hr. split.
  - intros Hf. rewrite bool_decide_eq_false_2 by done. rewrite Hl.
    unfold call_log_model. rewrite Hm. by destruct (log_model _ _ _ w).
  - intros workflow Hf Hw. rewrite bool_decide_eq_true_2 by done. rewrite Hw.
    assert (_logging_activated (set_save_arg self workflow model) = true) as ->
      by done.
    unfold call_log_model.
    assert (module_function (set_save_arg self workflow model) "log_model" = Ok ())
      as -> by done.
    by destruct (log_model _ _ _ w).
Qed.

(** X18. [_load]: a failure to import the flavor or to find [load_model]
    comes out as it is (an [ImportError] is not turned into a
    [DataSetError] here); with the function found, no run id and no active
    run, the [DataSetError] of [model_uri] is raised; a [model_uri] among
    the [load_args] is a [TypeError]; in all three cases [load_model] is not
    called and mlflow is left as it was.  Otherwise [load_model] is called
    with the URI and the [load_args], and its outcome is the outcome. *)
Theorem X18_load self w :
  (∀ e, module_function self "load_model" = Raise e → _load self w = (Raise e, w)) ∧
  (module_function self "load_model" = Ok () →
   (∀ e, model_uri self w = Raise e → _load self w = (Raise e, w)) ∧
   (truthy_str (MlflowModelLoggerDataSet._run_id self) = false →
    active_run w = None →
    _load self w = (Raise (DataSetError model_uri_message), w)) ∧
   (∀ uri, model_uri self w = Ok uri →
      ("model_uri" ∈ dom (_load_args self) →
       _load self w = (Raise (OtherError "TypeError"), w)) ∧
      ("model_uri" ∉ dom (_load_args self) →
       _load self w = load_model (_flavor self) uri (_load_args self) w))).
Proof.
  unfold _load. split.
  - by intros e ->.
  - intros ->. split_and!.
    + by intros e ->.
    + intros Hr Ha. unfold model_uri. by rewrite Hr, Ha.
    + intros uri ->. split; intros Hk.
      * by rewrite bool_decide_eq_true_2.
      * by rewrite bool_decide_eq_false_2.
Qed.

End model_methods.

(** ** The model datasets in the example environment *)

Section model_examples.

Abbreviation env := (example_environment example_modules).
Abbreviation mlf := (example_mlflow example_modules).

Lemma X11_witness :
  @MlflowAbstractModelDataSet.__init__ env
    "model" "mlflow.xgboost" None None None None
  = Raise (DataSetError
      "'mlflow.xgboost' module not found. Check valid flavor in mlflow documentation: https://www.mlflow.org/docs/latest/python_api/index.html").
Proof.
  refine (proj1 (@X11_import_failures env
            "model" "mlflow.xgboost" None None None None ("model", None)
            eq_refl _) _).
  - intros Hf. discriminate Hf.
  - reflexivity.
Defined.

Lemma X12_witness :
  ∃ o,
    @MlflowModelLoggerDataSet.__init__ env
      "mlflow.sklearn" None (Some "model") None None
      (Some {[ "artifact_path" := PStr "other"; "conda_env" := PStr "env.yml" ]})
    = Ok o ∧
    @ModelLogger._save_args env o !! "artifact_path" = None ∧
    @ModelLogger._save_args env o !! "conda_env" = Some (PStr "env.yml").
Proof.
  eassert (Ho : @MlflowModelLoggerDataSet.__init__ env
      "mlflow.sklearn" None (Some "model") None None
      (Some {[ "artifact_path" := PStr "other"; "conda_env" := PStr "env.yml" ]})
    = Ok _) by reflexivity.
  destruct (@X12_logger_constructed env _ _ _ _ _ _ _ Ho)
    as (Hpath & Hothers & _).
  eexists. split_and!; [exact Ho|exact Hpath|].
  etransitivity; [apply (Hothers "conda_env"); discriminate|]. reflexivity.
Defined.

Lemma X14_witness :
  @ModelLogger._save env mlf (sklearn_logger (Some "run1") true) (PStr "m")
    (Some "run0", [])
  = Some (Raise (DataSetError (ModelLogger.run_id_message "run1" "run0")),
          sklearn_logger (Some "run1") true, (Some "run0", [])).
Proof.
  apply (@X14_save_run_conflict env mlf); [reflexivity|discriminate|reflexivity].
Defined.

Lemma pyfunc_logger_well_formed run_id logging :
  @ModelLogger.well_formed env (pyfunc_logger run_id logging).
Proof. intros _. apply list_elem_of_here. Qed.

Lemma sklearn_logger_well_formed run_id logging :
  @ModelLogger.well_formed env (sklearn_logger run_id logging).
Proof. intros Hf. discriminate Hf. Qed.

Lemma X15_witness :
  ∃ r self' w',
    @ModelLogger._save env mlf (pyfunc_logger (Some "run1") true) (PStr "m") (None, [])
    = Some (r, self', w') ∧
    @ModelLogger.well_formed env self'.
Proof.
  destruct (@X15_save_frame env mlf (pyfunc_logger (Some "run1") true) (PStr "m")
              (None, []) (pyfunc_logger_well_formed _ _))
    as (r & self' & w' & Hs & Hwf & _).
  eauto.
Defined.

Lemma X16_witness :
  (∃ self', @ModelLogger._save env mlf (sklearn_logger None false) (PStr "m") (None, [])
            = Some (Ok (), self', (None, []))) ∧
  (∃ self', @ModelLogger._save env mlf (pyfunc_logger (Some "run1") false) (PStr "m")
              (None, [])
            = Some (Ok (), self', (None, [Started "run1"; Ended true]))).
Proof.
  split.
  - apply (proj1 (@X16_save_logging_off env mlf (sklearn_logger None false) (PStr "m")
                    (None, []) eq_refl (sklearn_logger_well_formed _ _))).
    by left.
  - apply (proj2 (@X16_save_logging_off env mlf (pyfunc_logger (Some "run1") false)
                    (PStr "m") (None, []) eq_refl (pyfunc_logger_well_formed _ _))
             "run1" (Some "run1", [Started "run1"]));
      [reflexivity|discriminate|reflexivity|reflexivity].
Defined.

Lemma X17_witness :
  @ModelLogger._save env mlf (pyfunc_logger None true) (PStr "m") (None, [])
  = Some (Ok (),
          @ModelLogger.set_save_arg env (pyfunc_logger None true) "python_model" (PStr "m"),
          (None,
           [Logged "mlflow.pyfunc" [inr (Some "model")]
              {[ "python_model" := PStr "m"; "conda_env" := PStr "env.yml" ]}])).
Proof.
  etransitivity;
    [apply (proj2 (@X17_save_calls_log_model env mlf (pyfunc_logger None true) (PStr "m")
                     (None, []) eq_refl eq_refl eq_refl) "python_model");
     reflexivity|].
  reflexivity.
Defined.

End model_examples.
